(** * Cartridges main window: filter, sort, placeholder and navigation logic

    A shallow embedding of [src/window.py] (class [CartridgesWindow]).
    Python objects become records, [self] becomes an explicit window state
    that every handler takes and returns, and the games of [shared.store]
    are referred to by their position in the store, so that a mutation of
    [game.filtered] is seen by every later reader of the store. *)

From Stdlib Require Import ZArith String Ascii DecimalString Bool.
From Stdlib Require DecimalPos DecimalN DecimalZ.
From Stdlib Require OrderedType OrderedTypeEx.
From stdpp Require Import base list strings.

Open Scope string_scope.
Open Scope Z_scope.

(** ** Python strings

    Strings are byte strings; [str.lower] is modelled on the ASCII range,
    where it maps [A-Z] to [a-z] and leaves every other character alone. *)
Module Py.

Definition lower_char (c : ascii) : ascii :=
  let n := N_of_ascii c in
  if (N.leb 65 n && N.leb n 90)%bool then ascii_of_N (n + 32) else c.

(** [s.lower()] *)
Fixpoint lower (s : string) : string :=
  match s with
  | EmptyString => EmptyString
  | String c s' => String (lower_char c) (lower s')
  end.

(** [q in s] on strings: [q] occurs in [s] at some offset. *)
Fixpoint contains (q s : string) : bool :=
  String.prefix q s ||
  match s with
  | EmptyString => false
  | String _ s' => contains q s'
  end.

(** [a > b] on strings: lexicographic on character codes. *)
Definition gt (a b : string) : bool :=
  match String.compare a b with
  | Gt => true
  | _ => false
  end.

(** [str(n)] for an integer. *)
Definition str_int (n : Z) : string := NilZero.string_of_int (Z.to_int n).

(** [str(v)] for an optional integer: [None] prints as its name. *)
Definition str_opt_int (v : option Z) : string :=
  match v with
  | Some n => str_int n
  | None => "None"
  end.

(** Truth value of an optional string ([None] and [""] are false). *)
Definition truthy (v : option string) : bool :=
  match v with
  | Some EmptyString => false
  | Some _ => true
  | None => false
  end.

(** [bool * 2 - 1] style arithmetic: a [bool] used as an [int]. *)
Definition int_of_bool (b : bool) : Z := if b then 1 else 0.

(** [s.strip(c)] for a one character set. *)
Fixpoint lstrip (c : ascii) (s : string) : string :=
  match s with
  | String a s' => if Ascii.eqb a c then lstrip c s' else s
  | EmptyString => EmptyString
  end.

Fixpoint rstrip (c : ascii) (s : string) : string :=
  match s with
  | String a s' =>
      match rstrip c s' with
      | EmptyString => if Ascii.eqb a c then EmptyString else String a EmptyString
      | r => String a r
      end
  | EmptyString => EmptyString
  end.

Definition strip (c : ascii) (s : string) : string := rstrip c (lstrip c s).

(** Outcome of a call: normal return, or an exception that escapes. *)
Inductive exception := IndexError | KeyError.
Inductive outcome := Returned | Raised (e : exception).

End Py.

(** ** Games (the fields of [src.game.Game] that the window reads or writes) *)
Record Game := mkGame {
  name : string;
  developer : option string;
  added : Z;
  last_played : option Z;
  hidden : bool;
  removed : bool;
  blacklisted : bool;
  filtered : bool;
  loading : bool
}.

Definition set_filtered (v : bool) (g : Game) : Game :=
  mkGame (name g) (developer g) (added g) (last_played g)
         (hidden g) (removed g) (blacklisted g) v (loading g).

Definition set_removed (v : bool) (g : Game) : Game :=
  mkGame (name g) (developer g) (added g) (last_played g)
         (hidden g) v (blacklisted g) (filtered g) (loading g).

(** A game object is referred to by its position in [shared.store]. *)
Definition GameRef := nat.

(** ** Widgets *)

(** The three children of [self.stack]. *)
Inductive Page := library_view | hidden_library_view | details_view.

(** The other template children that the modelled handlers compare, show or
    focus. [search_entry_inner] and [hidden_search_entry_inner] are the text
    widgets inside the two search entries, which is where the toolkit puts
    the input focus of an entry. *)
Inductive Widget :=
| notice_empty | notice_no_results | scrolledwindow
| hidden_notice_empty | hidden_notice_no_results | hidden_scrolledwindow
| search_entry | hidden_search_entry
| search_entry_inner | hidden_search_entry_inner
| details_view_play_button
| other_widget (id : nat).

Inductive StackTransitionType := UNDER_RIGHT | OVER_LEFT.

#[global] Instance Page_eq_dec : EqDecision Page.
Proof. solve_decision. Defined.

#[global] Instance Widget_eq_dec : EqDecision Widget.
Proof. solve_decision. Defined.

(** ** The undo registry and the importer *)

Definition Toast := nat.

(** Keys of [self.toasts]: a game and the action to undo. *)
Definition ToastKey := (GameRef * option string)%type.

Record Importer := mkImporter {
  imported_game_ids : list string;
  removed_game_ids : list string
}.

(** ** The window *)

Record CartridgesWindow := mkWindow {
  store : list Game;
  library_children : list GameRef;
  hidden_library_children : list GameRef;
  stack_visible_child : Page;
  stack_transition_type : StackTransitionType;
  previous_page : Page;
  show_hidden_enabled : bool;
  library_bin_child : Widget;
  hidden_library_bin_child : Widget;
  search_entry_text : string;
  hidden_search_entry_text : string;
  search_bar_search_mode : bool;
  hidden_search_bar_search_mode : bool;
  focus_widget : option Widget;
  sort_state : string;
  sort_action_state : string;
  sort_mode_setting : string;
  toasts : list (ToastKey * Toast);
  dismissed : list Toast;
  importer : option Importer;
  active_game : option GameRef
}.

Definition with_store (v : list Game) (w : CartridgesWindow) : CartridgesWindow :=
  mkWindow v (library_children w) (hidden_library_children w)
    (stack_visible_child w) (stack_transition_type w) (previous_page w)
    (show_hidden_enabled w) (library_bin_child w)
    (hidden_library_bin_child w) (search_entry_text w)
    (hidden_search_entry_text w) (search_bar_search_mode w)
    (hidden_search_bar_search_mode w) (focus_widget w) (sort_state w)
    (sort_action_state w) (sort_mode_setting w) (toasts w) (dismissed w)
    (importer w) (active_game w).

Definition with_library_children (v : list GameRef) (w : CartridgesWindow) : CartridgesWindow :=
  mkWindow (store w) v (hidden_library_children w) (stack_visible_child w)
    (stack_transition_type w) (previous_page w) (show_hidden_enabled w)
    (library_bin_child w) (hidden_library_bin_child w) (search_entry_text w)
    (hidden_search_entry_text w) (search_bar_search_mode w)
    (hidden_search_bar_search_mode w) (focus_widget w) (sort_state w)
    (sort_action_state w) (sort_mode_setting w) (toasts w) (dismissed w)
    (importer w) (active_game w).

Definition with_hidden_library_children (v : list GameRef) (w : CartridgesWindow) : CartridgesWindow :=
  mkWindow (store w) (library_children w) v (stack_visible_child w)
    (stack_transition_type w) (previous_page w) (show_hidden_enabled w)
    (library_bin_child w) (hidden_library_bin_child w) (search_entry_text w)
    (hidden_search_entry_text w) (search_bar_search_mode w)
    (hidden_search_bar_search_mode w) (focus_widget w) (sort_state w)
    (sort_action_state w) (sort_mode_setting w) (toasts w) (dismissed w)
    (importer w) (active_game w).

Definition with_stack_visible_child (v : Page) (w : CartridgesWindow) : CartridgesWindow :=
  mkWindow (store w) (library_children w) (hidden_library_children w) v
    (stack_transition_type w) (previous_page w) (show_hidden_enabled w)
    (library_bin_child w) (hidden_library_bin_child w) (search_entry_text w)
    (hidden_search_entry_text w) (search_bar_search_mode w)
    (hidden_search_bar_search_mode w) (focus_widget w) (sort_state w)
    (sort_action_state w) (sort_mode_setting w) (toasts w) (dismissed w)
    (importer w) (active_game w).

Definition with_stack_transition_type (v : StackTransitionType) (w : CartridgesWindow) : CartridgesWindow :=
  mkWindow (store w) (library_children w) (hidden_library_children w)
    (stack_visible_child w) v (previous_page w) (show_hidden_enabled w)
    (library_bin_child w) (hidden_library_bin_child w) (search_entry_text w)
    (hidden_search_entry_text w) (search_bar_search_mode w)
    (hidden_search_bar_search_mode w) (focus_widget w) (sort_state w)
    (sort_action_state w) (sort_mode_setting w) (toasts w) (dismissed w)
    (importer w) (active_game w).

Definition with_previous_page (v : Page) (w : CartridgesWindow) : CartridgesWindow :=
  mkWindow (store w) (library_children w) (hidden_library_children w)
    (stack_visible_child w) (stack_transition_type w) v
    (show_hidden_enabled w) (library_bin_child w)
    (hidden_library_bin_child w) (search_entry_text w)
    (hidden_search_entry_text w) (search_bar_search_mode w)
    (hidden_search_bar_search_mode w) (focus_widget w) (sort_state w)
    (sort_action_state w) (sort_mode_setting w) (toasts w) (dismissed w)
    (importer w) (active_game w).

Definition with_show_hidden_enabled (v : bool) (w : CartridgesWindow) : CartridgesWindow :=
  mkWindow (store w) (library_children w) (hidden_library_children w)
    (stack_visible_child w) (stack_transition_type w) (previous_page w) v
    (library_bin_child w) (hidden_library_bin_child w) (search_entry_text w)
    (hidden_search_entry_text w) (search_bar_search_mode w)
    (hidden_search_bar_search_mode w) (focus_widget w) (sort_state w)
    (sort_action_state w) (sort_mode_setting w) (toasts w) (dismissed w)
    (importer w) (active_game w).

Definition with_library_bin_child (v : Widget) (w : CartridgesWindow) : CartridgesWindow :=
  mkWindow (store w) (library_children w) (hidden_library_children w)
    (stack_visible_child w) (stack_transition_type w) (previous_page w)
    (show_hidden_enabled w) v (hidden_library_bin_child w)
    (search_entry_text w) (hidden_search_entry_text w)
    (search_bar_search_mode w) (hidden_search_bar_search_mode w) (focus_widget w)
    (sort_state w) (sort_action_state w) (sort_mode_setting w) (toasts w)
    (dismissed w) (importer w) (active_game w).

Definition with_hidden_library_bin_child (v : Widget) (w : CartridgesWindow) : CartridgesWindow :=
  mkWindow (store w) (library_children w) (hidden_library_children w)
    (stack_visible_child w) (stack_transition_type w) (previous_page w)
    (show_hidden_enabled w) (library_bin_child w) v (search_entry_text w)
    (hidden_search_entry_text w) (search_bar_search_mode w)
    (hidden_search_bar_search_mode w) (focus_widget w) (sort_state w)
    (sort_action_state w) (sort_mode_setting w) (toasts w) (dismissed w)
    (importer w) (active_game w).

Definition with_search_entry_text (v : string) (w : CartridgesWindow) : CartridgesWindow :=
  mkWindow (store w) (library_children w) (hidden_library_children w)
    (stack_visible_child w) (stack_transition_type w) (previous_page w)
    (show_hidden_enabled w) (library_bin_child w)
    (hidden_library_bin_child w) v (hidden_search_entry_text w)
    (search_bar_search_mode w) (hidden_search_bar_search_mode w) (focus_widget w)
    (sort_state w) (sort_action_state w) (sort_mode_setting w) (toasts w)
    (dismissed w) (importer w) (active_game w).

Definition with_hidden_search_entry_text (v : string) (w : CartridgesWindow) : CartridgesWindow :=
  mkWindow (store w) (library_children w) (hidden_library_children w)
    (stack_visible_child w) (stack_transition_type w) (previous_page w)
    (show_hidden_enabled w) (library_bin_child w)
    (hidden_library_bin_child w) (search_entry_text w) v
    (search_bar_search_mode w) (hidden_search_bar_search_mode w) (focus_widget w)
    (sort_state w) (sort_action_state w) (sort_mode_setting w) (toasts w)
    (dismissed w) (importer w) (active_game w).

Definition with_search_bar_search_mode (v : bool) (w : CartridgesWindow) : CartridgesWindow :=
  mkWindow (store w) (library_children w) (hidden_library_children w)
    (stack_visible_child w) (stack_transition_type w) (previous_page w)
    (show_hidden_enabled w) (library_bin_child w)
    (hidden_library_bin_child w) (search_entry_text w)
    (hidden_search_entry_text w) v (hidden_search_bar_search_mode w)
    (focus_widget w) (sort_state w) (sort_action_state w) (sort_mode_setting w)
    (toasts w) (dismissed w) (importer w) (active_game w).

Definition with_hidden_search_bar_search_mode (v : bool) (w : CartridgesWindow) : CartridgesWindow :=
  mkWindow (store w) (library_children w) (hidden_library_children w)
    (stack_visible_child w) (stack_transition_type w) (previous_page w)
    (show_hidden_enabled w) (library_bin_child w)
    (hidden_library_bin_child w) (search_entry_text w)
    (hidden_search_entry_text w) (search_bar_search_mode w) v (focus_widget w)
    (sort_state w) (sort_action_state w) (sort_mode_setting w) (toasts w)
    (dismissed w) (importer w) (active_game w).

Definition with_focus_widget (v : option Widget) (w : CartridgesWindow) : CartridgesWindow :=
  mkWindow (store w) (library_children w) (hidden_library_children w)
    (stack_visible_child w) (stack_transition_type w) (previous_page w)
    (show_hidden_enabled w) (library_bin_child w)
    (hidden_library_bin_child w) (search_entry_text w)
    (hidden_search_entry_text w) (search_bar_search_mode w)
    (hidden_search_bar_search_mode w) v (sort_state w) (sort_action_state w)
    (sort_mode_setting w) (toasts w) (dismissed w) (importer w)
    (active_game w).

Definition with_sort_state (v : string) (w : CartridgesWindow) : CartridgesWindow :=
  mkWindow (store w) (library_children w) (hidden_library_children w)
    (stack_visible_child w) (stack_transition_type w) (previous_page w)
    (show_hidden_enabled w) (library_bin_child w)
    (hidden_library_bin_child w) (search_entry_text w)
    (hidden_search_entry_text w) (search_bar_search_mode w)
    (hidden_search_bar_search_mode w) (focus_widget w) v (sort_action_state w)
    (sort_mode_setting w) (toasts w) (dismissed w) (importer w)
    (active_game w).

Definition with_sort_action_state (v : string) (w : CartridgesWindow) : CartridgesWindow :=
  mkWindow (store w) (library_children w) (hidden_library_children w)
    (stack_visible_child w) (stack_transition_type w) (previous_page w)
    (show_hidden_enabled w) (library_bin_child w)
    (hidden_library_bin_child w) (search_entry_text w)
    (hidden_search_entry_text w) (search_bar_search_mode w)
    (hidden_search_bar_search_mode w) (focus_widget w) (sort_state w) v
    (sort_mode_setting w) (toasts w) (dismissed w) (importer w)
    (active_game w).

Definition with_sort_mode_setting (v : string) (w : CartridgesWindow) : CartridgesWindow :=
  mkWindow (store w) (library_children w) (hidden_library_children w)
    (stack_visible_child w) (stack_transition_type w) (previous_page w)
    (show_hidden_enabled w) (library_bin_child w)
    (hidden_library_bin_child w) (search_entry_text w)
    (hidden_search_entry_text w) (search_bar_search_mode w)
    (hidden_search_bar_search_mode w) (focus_widget w) (sort_state w)
    (sort_action_state w) v (toasts w) (dismissed w) (importer w)
    (active_game w).

Definition with_toasts (v : list (ToastKey * Toast)) (w : CartridgesWindow) : CartridgesWindow :=
  mkWindow (store w) (library_children w) (hidden_library_children w)
    (stack_visible_child w) (stack_transition_type w) (previous_page w)
    (show_hidden_enabled w) (library_bin_child w)
    (hidden_library_bin_child w) (search_entry_text w)
    (hidden_search_entry_text w) (search_bar_search_mode w)
    (hidden_search_bar_search_mode w) (focus_widget w) (sort_state w)
    (sort_action_state w) (sort_mode_setting w) v (dismissed w) (importer w)
    (active_game w).

Definition with_dismissed (v : list Toast) (w : CartridgesWindow) : CartridgesWindow :=
  mkWindow (store w) (library_children w) (hidden_library_children w)
    (stack_visible_child w) (stack_transition_type w) (previous_page w)
    (show_hidden_enabled w) (library_bin_child w)
    (hidden_library_bin_child w) (search_entry_text w)
    (hidden_search_entry_text w) (search_bar_search_mode w)
    (hidden_search_bar_search_mode w) (focus_widget w) (sort_state w)
    (sort_action_state w) (sort_mode_setting w) (toasts w) v (importer w)
    (active_game w).

Definition with_importer (v : option Importer) (w : CartridgesWindow) : CartridgesWindow :=
  mkWindow (store w) (library_children w) (hidden_library_children w)
    (stack_visible_child w) (stack_transition_type w) (previous_page w)
    (show_hidden_enabled w) (library_bin_child w)
    (hidden_library_bin_child w) (search_entry_text w)
    (hidden_search_entry_text w) (search_bar_search_mode w)
    (hidden_search_bar_search_mode w) (focus_widget w) (sort_state w)
    (sort_action_state w) (sort_mode_setting w) (toasts w) (dismissed w) v
    (active_game w).

Definition with_active_game (v : option GameRef) (w : CartridgesWindow) : CartridgesWindow :=
  mkWindow (store w) (library_children w) (hidden_library_children w)
    (stack_visible_child w) (stack_transition_type w) (previous_page w)
    (show_hidden_enabled w) (library_bin_child w)
    (hidden_library_bin_child w) (search_entry_text w)
    (hidden_search_entry_text w) (search_bar_search_mode w)
    (hidden_search_bar_search_mode w) (focus_widget w) (sort_state w)
    (sort_action_state w) (sort_mode_setting w) (toasts w) (dismissed w)
    (importer w) v.

(** ** Collaborators outside [window.py]

    The methods of [Game] and of the importer that [on_undo_action] calls,
    and the sorting routine that the toolkit runs with the window's
    comparator on [invalidate_sort]. They live in other modules, so the
    handlers take them as an interface. *)
Class Collaborators := {
  toggle_hidden : bool -> GameRef -> CartridgesWindow -> CartridgesWindow;
  save : GameRef -> CartridgesWindow -> CartridgesWindow;
  update : GameRef -> CartridgesWindow -> CartridgesWindow;
  undo_import : CartridgesWindow -> CartridgesWindow;
  flowbox_sort : (GameRef -> GameRef -> Z) -> list GameRef -> list GameRef
}.

(** ** Placeholder selection: [set_library_child] *)

(** One iteration of the loop over [shared.store]. *)
Definition set_library_child_body (acc : Widget * Widget) (game : Game)
  : Widget * Widget :=
  let '(child, hidden_child) := acc in
  if removed game || blacklisted game then acc
  else if hidden game then
    if filtered game && negb (bool_decide (hidden_child = hidden_scrolledwindow))
    then (child, hidden_notice_no_results)
    else (child, hidden_scrolledwindow)
  else
    if filtered game && negb (bool_decide (child = scrolledwindow))
    then (notice_no_results, hidden_child)
    else (scrolledwindow, hidden_child).

Definition set_library_child_loop (games : list Game) : Widget * Widget :=
  fold_left set_library_child_body games (notice_empty, hidden_notice_empty).

Definition set_library_child (w : CartridgesWindow) : CartridgesWindow :=
  let '(child, hidden_child) := set_library_child_loop (store w) in
  with_hidden_library_bin_child hidden_child (with_library_bin_child child w).

(** ** Filter predicate: [filter_func] *)

(** The text of the search entry that [filter_func] reads. *)
Definition filter_text (w : CartridgesWindow) : string :=
  Py.lower
    (if bool_decide (stack_visible_child w = hidden_library_view)
     then hidden_search_entry_text w
     else search_entry_text w).

(** The value assigned to the local [filtered]. *)
Definition filter_filtered (text : string) (game : Game) : bool :=
  negb (String.eqb text "") &&
  negb (Py.contains text (Py.lower (name game)) ||
        (if Py.truthy (developer game)
         then match developer game with
              | Some d => Py.contains text (Py.lower d)
              | None => false
              end
         else false)).

(** [filter_func(child)]: the new window and the returned flag. A reference
    that is not in the store denotes no game; the model then leaves the
    window alone and keeps the item. *)
Definition filter_func (child : GameRef) (w : CartridgesWindow)
  : CartridgesWindow * bool :=
  match store w !! child with
  | None => (w, true)
  | Some game =>
      let filtered := filter_filtered (filter_text w) game in
      let w1 := with_store (<[child := set_filtered filtered game]> (store w)) w in
      (set_library_child w1, negb filtered)
  end.

(** [invalidate_filter] on a flow box runs the filter on each child. *)
Definition invalidate_filter (children : list GameRef) (w : CartridgesWindow)
  : CartridgesWindow :=
  fold_left (fun w1 child => fst (filter_func child w1)) children w.

Definition search_changed (hidden : bool) (w : CartridgesWindow)
  : CartridgesWindow :=
  invalidate_filter
    (if hidden then hidden_library_children w else library_children w) w.

(** ** Sort comparator: [sort_func] *)

(** The attribute named by the local [var]. *)
Inductive Attr := attr_name | attr_added | attr_last_played.

#[global] Instance Attr_eq_dec : EqDecision Attr.
Proof. solve_decision. Defined.

(** [str(getattr(game, var)).lower()] *)
Definition get_value (var : Attr) (game : Game) : string :=
  Py.lower
    match var with
    | attr_name => name game
    | attr_added => Py.str_int (added game)
    | attr_last_played => Py.str_opt_int (last_played game)
    end.

(** [var, order] after the chain of tests on [sort_state]. *)
Definition sort_key (state : string) : Attr * bool :=
  if String.eqb state "newest" || String.eqb state "oldest"
  then (attr_added, String.eqb state "newest")
  else if String.eqb state "last_played" then (attr_last_played, true)
  else if String.eqb state "a-z" then (attr_name, false)
  else (attr_name, true).

Definition sort_func (w : CartridgesWindow) (game1 game2 : Game) : Z :=
  let '(var, order) := sort_key (sort_state w) in
  let '(var, order) :=
    if negb (bool_decide (var = attr_name)) &&
       String.eqb (get_value var game1) (get_value var game2)
    then (attr_name, true)
    else (var, order) in
  Py.int_of_bool (xorb (Py.gt (get_value var game1) (get_value var game2)) order)
  * 2 - 1.

(** The comparator on the children of a flow box. *)
Definition sort_children (w : CartridgesWindow) (child1 child2 : GameRef) : Z :=
  match store w !! child1, store w !! child2 with
  | Some game1, Some game2 => sort_func w game1 game2
  | _, _ => 0
  end.

(** ** Navigation: [navigate] and the actions built on it *)

(** [levels.index(page)] for
    [levels = (library_view, hidden_library_view, details_view)]. *)
Definition levels_index (page : Page) : Z :=
  match page with
  | library_view => 0
  | hidden_library_view => 1
  | details_view => 2
  end.

Definition navigate (next_page : Page) (w : CartridgesWindow)
  : CartridgesWindow :=
  let w1 :=
    with_stack_transition_type
      (if levels_index (stack_visible_child w) - levels_index next_page >? 0
       then UNDER_RIGHT else OVER_LEFT) w in
  let w2 :=
    if bool_decide (next_page = library_view)
       || bool_decide (next_page = hidden_library_view)
    then with_show_hidden_enabled (bool_decide (next_page = library_view))
           (with_previous_page next_page w1)
    else w1 in
  with_stack_visible_child next_page w2.

Definition on_go_to_parent_action (w : CartridgesWindow) : CartridgesWindow :=
  if bool_decide (stack_visible_child w = details_view)
  then navigate
         (if bool_decide (previous_page w = hidden_library_view)
          then hidden_library_view else library_view) w
  else w.

Definition on_go_back_action (w : CartridgesWindow) : CartridgesWindow :=
  if bool_decide (stack_visible_child w = hidden_library_view)
  then navigate library_view w
  else if bool_decide (stack_visible_child w = details_view)
  then on_go_to_parent_action w
  else w.

Definition on_go_home_action (w : CartridgesWindow) : CartridgesWindow :=
  navigate library_view w.

Definition on_show_hidden_action (w : CartridgesWindow) : CartridgesWindow :=
  navigate hidden_library_view w.

(** ** Focus

    [get_focus] is the window's focus widget. Asking a search entry for its
    focus child gives the entry's inner text widget when the focus is in the
    entry and [None] otherwise; focusing an entry focuses that inner
    widget. *)
Definition get_focus (w : CartridgesWindow) : option Widget := focus_widget w.

Definition get_focus_child (entry_inner : Widget) (w : CartridgesWindow)
  : option Widget :=
  if bool_decide (focus_widget w = Some entry_inner)
  then Some entry_inner else None.

Definition set_focus (target : Widget) (w : CartridgesWindow)
  : CartridgesWindow :=
  with_focus_widget
    (Some match target with
          | search_entry => search_entry_inner
          | hidden_search_entry => hidden_search_entry_inner
          | other => other
          end) w.

(** ** Details view *)

(** [show_details_view(game)]: the labels, icons and cover it fills in are
    display only; the model keeps the active game, the navigation and the
    focus. *)
Definition show_details_view (game : GameRef) (w : CartridgesWindow)
  : CartridgesWindow :=
  let w1 := with_active_game (Some game) w in
  if negb (bool_decide (stack_visible_child w1 = details_view))
  then set_focus details_view_play_button (navigate details_view w1)
  else w1.

(** [set_active_game(_widget, _pspec, game)] *)
Definition set_active_game (game : GameRef) (w : CartridgesWindow)
  : CartridgesWindow :=
  with_active_game (Some game) w.

(** [show_details_view_search(widget)]: open the first child of the entry's
    flow box that passes the filter. *)
Fixpoint show_details_view_search_loop (children : list GameRef)
    (w : CartridgesWindow) : CartridgesWindow :=
  match children with
  | [] => w
  | child :: rest =>
      let '(w1, keep) := filter_func child w in
      if keep then show_details_view child w1
      else show_details_view_search_loop rest w1
  end.

Definition show_details_view_search (widget : Widget) (w : CartridgesWindow)
  : CartridgesWindow :=
  show_details_view_search_loop
    (if bool_decide (widget = hidden_search_entry)
     then hidden_library_children w else library_children w) w.

(** ** Search toggle and Escape *)

(** [entry.set_text("")] on one of the two search entries. When the text
    of the entry changes the toolkit emits search-changed (at once when the
    new text is empty, without the typing delay), which [__init__] connects
    to [search_changed] with the [hidden] flag of the entry; an entry that
    is already empty does not change and nothing is emitted. *)
Definition search_entry_set_text_empty (hidden : bool) (w : CartridgesWindow)
  : CartridgesWindow :=
  if hidden then
    if String.eqb (hidden_search_entry_text w) "" then w
    else search_changed true (with_hidden_search_entry_text "" w)
  else
    if String.eqb (search_entry_text w) "" then w
    else search_changed false (with_search_entry_text "" w).

Definition on_toggle_search_action (w : CartridgesWindow) : CartridgesWindow :=
  if bool_decide (stack_visible_child w = library_view) then
    let search_mode := search_bar_search_mode w in
    let w1 := with_search_bar_search_mode (negb search_mode) w in
    let w2 := if negb search_mode then set_focus search_entry w1 else w1 in
    search_entry_set_text_empty false w2
  else if bool_decide (stack_visible_child w = hidden_library_view) then
    let search_mode := hidden_search_bar_search_mode w in
    let w1 := with_hidden_search_bar_search_mode (negb search_mode) w in
    let w2 := if negb search_mode then set_focus hidden_search_entry w1 else w1 in
    search_entry_set_text_empty true w2
  else w.

(** The test of [on_escape_action]; [==] binds tighter than [or], and the
    right operand of [or] is the truth value of an optional widget. *)
Definition escape_condition (w : CartridgesWindow) : bool :=
  bool_decide (get_focus w = get_focus_child search_entry_inner w)
  || match get_focus_child hidden_search_entry_inner w with
     | Some _ => true
     | None => false
     end.

Definition on_escape_action (w : CartridgesWindow) : CartridgesWindow :=
  if escape_condition w then on_toggle_search_action w
  else on_go_back_action w.

(** ** Sort menu: [on_sort_action] *)

(** [str(state)] for a string variant: the text between apostrophes. *)
Definition variant_str (state : string) : string := "'" ++ state ++ "'".

Definition invalidate_sort `{Collaborators} (children : list GameRef)
    (w : CartridgesWindow) : list GameRef :=
  flowbox_sort (sort_children w) children.

Definition on_sort_action `{Collaborators} (state : string)
    (w : CartridgesWindow) : CartridgesWindow :=
  let w1 := with_sort_action_state state w in
  let w2 := with_sort_state (Py.strip "'"%char (variant_str state)) w1 in
  let w3 := with_library_children (invalidate_sort (library_children w2) w2) w2 in
  with_sort_mode_setting (sort_state w3) w3.

(** ** Undo: [on_undo_action]

    [self.toasts] is a dictionary, kept here in insertion order with one
    entry per key. *)
Fixpoint dict_get (key : ToastKey) (d : list (ToastKey * Toast)) : option Toast :=
  match d with
  | [] => None
  | (k, v) :: rest => if bool_decide (k = key) then Some v else dict_get key rest
  end.

Definition dict_pop (key : ToastKey) (d : list (ToastKey * Toast))
  : list (ToastKey * Toast) :=
  filter (fun kv => kv.1 <> key) d.

(** [tuple(d.keys())[-1]], or [None] where Python raises [IndexError]. *)
Definition dict_last_key (d : list (ToastKey * Toast)) : option ToastKey :=
  fst <$> last d.

(** [shared.importer and (imported_game_ids or removed_game_ids)] *)
Definition importer_pending (w : CartridgesWindow) : bool :=
  match importer w with
  | None => false
  | Some i =>
      negb (bool_decide (imported_game_ids i = []))
      || negb (bool_decide (removed_game_ids i = []))
  end.

(** The [if undo == "hide": ... elif undo == "remove": ...] statement. *)
Definition undo_reversal `{Collaborators} (game : GameRef)
    (undo : option string) (w : CartridgesWindow) : CartridgesWindow :=
  if bool_decide (undo = Some "hide") then toggle_hidden false game w
  else if bool_decide (undo = Some "remove") then
    update game
      (save game (with_store (alter (set_removed false) game (store w)) w))
  else w.

(** The block under [if game:]. The registry lookup raises [KeyError] for a
    key that is not there, after the reversal has been applied. *)
Definition undo_game `{Collaborators} (game : GameRef) (undo : option string)
    (w : CartridgesWindow) : CartridgesWindow * Py.outcome :=
  let w1 := undo_reversal game undo w in
  match dict_get (game, undo) (toasts w1) with
  | None => (w1, Py.Raised Py.KeyError)
  | Some toast =>
      (with_toasts (dict_pop (game, undo) (toasts w1))
         (with_dismissed (toast :: dismissed w1) w1),
       Py.Returned)
  end.

Definition on_undo_action `{Collaborators} (game : option GameRef)
    (undo : option string) (w : CartridgesWindow)
  : CartridgesWindow * Py.outcome :=
  match game with
  | Some g => undo_game g undo w
  | None =>
      if importer_pending w then (undo_import w, Py.Returned)
      else
        match dict_last_key (toasts w) with
        | None => (w, Py.Returned)
        | Some (g, u) => undo_game g u w
        end
  end.

(** ** Construction and runs of the window *)

(** [__init__] on the window that the template built: the class attributes
    [toasts = {}] and [sort_state = "a-z"], then the two assignments of the
    constructor that touch the modelled state. *)
Definition init (template : CartridgesWindow) : CartridgesWindow :=
  set_library_child
    (with_previous_page library_view
       (with_sort_state "a-z" (with_toasts [] template))).

(** What the rest of the application and the toolkit may change between two
    handlers: everything except the view stack, [previous_page] and the
    [show_hidden] action, which only [navigate] writes. *)
Definition environment (env w : CartridgesWindow) : CartridgesWindow :=
  with_stack_visible_child (stack_visible_child w)
    (with_stack_transition_type (stack_transition_type w)
       (with_previous_page (previous_page w)
          (with_show_hidden_enabled (show_hidden_enabled w) env))).

Inductive Action :=
| SetLibraryChild
| SearchChanged (hidden : bool)
| FilterFunc (child : GameRef)
| SetActiveGame (game : GameRef)
| ShowDetailsView (game : GameRef)
| ShowDetailsViewSearch (widget : Widget)
| GoBack | GoToParent | GoHome | ShowHidden
| SortAction (state : string)
| ToggleSearch | Escape
| UndoAction (game : option GameRef) (undo : option string)
| Environment (env : CartridgesWindow).

Definition step `{Collaborators} (w : CartridgesWindow) (a : Action)
  : CartridgesWindow :=
  match a with
  | SetLibraryChild => set_library_child w
  | SearchChanged hidden => search_changed hidden w
  | FilterFunc child => fst (filter_func child w)
  | SetActiveGame game => set_active_game game w
  | ShowDetailsView game => show_details_view game w
  | ShowDetailsViewSearch widget => show_details_view_search widget w
  | GoBack => on_go_back_action w
  | GoToParent => on_go_to_parent_action w
  | GoHome => on_go_home_action w
  | ShowHidden => on_show_hidden_action w
  | SortAction state => on_sort_action state w
  | ToggleSearch => on_toggle_search_action w
  | Escape => on_escape_action w
  | UndoAction game undo => fst (on_undo_action game undo w)
  | Environment env => environment env w
  end.

Definition run `{Collaborators} (actions : list Action) (w : CartridgesWindow)
  : CartridgesWindow :=
  fold_left step actions w.

(** ** Sample data

    The games of the examples, in a window as the template leaves it. *)
Definition zelda : Game :=
  mkGame "Zelda" None 2020 None false false false false false.

Definition mario : Game :=
  mkGame "Mario" (Some "Zelda Co") 2021 (Some 1700000000) false false false
    false false.

Definition sample_template : CartridgesWindow :=
  mkWindow [zelda; mario] [0%nat; 1%nat] [] library_view OVER_LEFT
    library_view true notice_empty hidden_notice_empty "" "" false false None
    "a-z" "" "" [] [] None None.

Definition sample_window : CartridgesWindow := init sample_template.

(** A game known by its name and the time it was last played. *)
Definition played (n : string) (t : Z) : Game :=
  mkGame n None 1600000000 (Some t) false false false false false.

(** Collaborators that do nothing and a flow box that keeps its order, to
    run the handlers on the sample data. *)
Definition idle : Collaborators :=
  {| toggle_hidden := fun _ _ w => w;
     save := fun _ w => w;
     update := fun _ w => w;
     undo_import := fun w => w;
     flowbox_sort := fun _ children => children |}.

(** Collaborators whose flow box sorts by insertion with the comparator it
    is given. *)
Fixpoint insert_child (cmp : GameRef -> GameRef -> Z) (x : GameRef)
    (sorted : list GameRef) : list GameRef :=
  match sorted with
  | [] => [x]
  | y :: rest =>
      if cmp x y <? 0 then x :: y :: rest else y :: insert_child cmp x rest
  end.

Definition sorting : Collaborators :=
  {| toggle_hidden := fun _ _ w => w;
     save := fun _ w => w;
     update := fun _ w => w;
     undo_import := fun w => w;
     flowbox_sort := fun cmp children => foldr (insert_child cmp) [] children |}.

(** The sort modes of the menu. *)
Definition sort_modes : list string :=
  ["a-z"; "z-a"; "newest"; "oldest"; "last_played"].

(** ** Notions used in the statements *)

(** [q] is a substring of [s]. *)
Definition Substring (q s : string) : Prop :=
  exists pre post : string, s = pre ++ q ++ post.

(** The search query in force when the filter runs. *)
Definition active_query (w : CartridgesWindow) : string :=
  if bool_decide (stack_visible_child w = hidden_library_view)
  then hidden_search_entry_text w
  else search_entry_text w.

(** [G'] is the game [G] in every field but [filtered]. *)
Definition same_game_but_filtered (G G' : Game) : Prop :=
  name G' = name G /\ developer G' = developer G /\ added G' = added G
  /\ last_played G' = last_played G /\ hidden G' = hidden G
  /\ removed G' = removed G /\ blacklisted G' = blacklisted G
  /\ loading G' = loading G.

(** The tuple of flags that placeholder selection may depend on. *)
Definition flags (g : Game) : bool * bool * bool * bool :=
  (hidden g, removed g, blacklisted g, filtered g).

(** Membership in one of the two groups: not removed, not blacklisted, and
    [hidden] as the group asks. *)
Definition in_group (hid : bool) (g : Game) : bool :=
  negb (removed g || blacklisted g) && Bool.eqb (hidden g) hid.

(** Placeholder selection as the specification words it: the scroll
    container if some game of the group is not filtered, else the no-results
    notice if the group is not empty, else the empty notice. *)
Definition spec_placeholder (hid : bool) (games : list Game) : Widget :=
  if existsb (fun g => in_group hid g && negb (filtered g)) games
  then (if hid then hidden_scrolledwindow else scrolledwindow)
  else if existsb (in_group hid) games
  then (if hid then hidden_notice_no_results else notice_no_results)
  else (if hid then hidden_notice_empty else notice_empty).

(** The navigation state: the visible page and the remembered library
    page. *)
Definition nav (w : CartridgesWindow) : Page * Page :=
  (stack_visible_child w, previous_page w).

(** A property of windows that only looks at the navigation state. *)
Definition navigation_only (P : CartridgesWindow -> Prop) : Prop :=
  forall w w', nav w = nav w' -> P w -> P w'.

(** The collaborators keep a property of the window. *)
Definition collaborators_preserve `{Collaborators}
    (P : CartridgesWindow -> Prop) : Prop :=
  (forall b g w, P w -> P (toggle_hidden b g w))
  /\ (forall g w, P w -> P (save g w))
  /\ (forall g w, P w -> P (update g w))
  /\ (forall w, P w -> P (undo_import w)).

(** [previous_page] is one of the two library pages. *)
Definition previous_page_is_library (w : CartridgesWindow) : Prop :=
  previous_page w = library_view \/ previous_page w = hidden_library_view.

(** While the hidden library is shown, it is the remembered page. *)
Definition hidden_page_remembered (w : CartridgesWindow) : Prop :=
  stack_visible_child w = hidden_library_view ->
  previous_page w = hidden_library_view.

(** The collaborators called by the reversal leave the registry alone. *)
Definition collaborators_keep_toasts `{Collaborators} : Prop :=
  (forall b g w, toasts (toggle_hidden b g w) = toasts w)
  /\ (forall g w, toasts (save g w) = toasts w)
  /\ (forall g w, toasts (update g w) = toasts w).

(** The order of Python strings, with its decision procedure. *)
Module StringOrder := OrderedTypeEx.String_as_OT.
Module StringOrderFacts := OrderedType.OrderedTypeFacts StringOrder.

(** When the comparator answers [-1] ([first = true], the first game is
    placed before the second) or [1] ([first = false]), in terms of the
    string order on the lowercase texts. *)
Definition holds (positive : bool) (P : Prop) : Prop :=
  if positive then P else ~ P.

Definition Placed (first : bool) (var : Attr) (order : bool) (a b : Game)
  : Prop :=
  let ka := get_value var a in
  let kb := get_value var b in
  let na := get_value attr_name a in
  let nb := get_value attr_name b in
  match var with
  | attr_name => holds (Bool.eqb first order) (StringOrder.lt nb na)
  | _ =>
      (ka = kb /\ holds first (StringOrder.lt nb na))
      \/ (ka <> kb /\ holds (Bool.eqb first order) (StringOrder.lt kb ka))
  end.

(** ** Notions used in the further properties *)

(** The two bins show what the selection gives for the flags in the store. *)
Definition placeholders_in_sync (w : CartridgesWindow) : Prop :=
  library_bin_child w = spec_placeholder false (store w)
  /\ hidden_library_bin_child w = spec_placeholder true (store w).

(** The verdict of the filter on a child, for a text and a store: [true]
    keeps the item. *)
Definition keeps (text : string) (games : list Game) (child : GameRef) : bool :=
  match games !! child with
  | Some g => negb (filter_filtered text g)
  | None => true
  end.

(** The first child of a flow box that the filter keeps. *)
Definition first_kept (text : string) (games : list Game)
    (children : list GameRef) : option GameRef :=
  List.find (keeps text games) children.

(** The state of the two searches and the focus. *)
Definition search_ui (w : CartridgesWindow)
  : string * string * bool * bool * option Widget :=
  (search_entry_text w, hidden_search_entry_text w, search_bar_search_mode w,
   hidden_search_bar_search_mode w, focus_widget w).

(** The part of the window that [navigate] writes, the transition aside. *)
Definition navq (w : CartridgesWindow) : Page * Page * bool :=
  (stack_visible_child w, previous_page w, show_hidden_enabled w).

(** The [show_hidden] action is enabled exactly when the remembered library
    page is the library. *)
Definition show_hidden_tracks (w : CartridgesWindow) : Prop :=
  show_hidden_enabled w = bool_decide (previous_page w = library_view).

(** On a library page, that page is the remembered one. *)
Definition library_page_remembered (w : CartridgesWindow) : Prop :=
  stack_visible_child w <> details_view ->
  previous_page w = stack_visible_child w.

(** The number that a string of decimal digits denotes, most significant
    digit first, continuing from the value [acc] of the digits before. *)
Fixpoint decimal_value (acc : N) (d : Decimal.uint) : N :=
  match d with
  | Decimal.Nil => acc
  | Decimal.D0 l => decimal_value (10 * acc) l
  | Decimal.D1 l => decimal_value (10 * acc + 1) l
  | Decimal.D2 l => decimal_value (10 * acc + 2) l
  | Decimal.D3 l => decimal_value (10 * acc + 3) l
  | Decimal.D4 l => decimal_value (10 * acc + 4) l
  | Decimal.D5 l => decimal_value (10 * acc + 5) l
  | Decimal.D6 l => decimal_value (10 * acc + 6) l
  | Decimal.D7 l => decimal_value (10 * acc + 7) l
  | Decimal.D8 l => decimal_value (10 * acc + 8) l
  | Decimal.D9 l => decimal_value (10 * acc + 9) l
  end%N.

(** What searching, sorting and navigating must leave alone: the games,
    their [filtered] flags aside, and the undo registry with its toasts and
    the importer. *)
Definition games_and_registry (w : CartridgesWindow)
  : list Game * list (ToastKey * Toast) * list Toast * option Importer :=
  (map (set_filtered false) (store w), toasts w, dismissed w, importer w).

(** The games that take part in placeholder selection. *)
Definition eligible (g : Game) : bool := negb (removed g || blacklisted g).

(** * Facts about the Python string operations *)

Section PyStrings.

Lemma lower_empty (s : string) : Py.lower s = "" <-> s = "".
Proof. destruct s; simpl; split; congruence. Qed.

Lemma append_nil (t : string) : "" ++ t = t.
Proof. reflexivity. Qed.

Lemma append_cons (a : ascii) (s t : string) :
  String a s ++ t = String a (s ++ t).
Proof. reflexivity. Qed.

Lemma prefix_app (q s : string) :
  String.prefix q s = true <-> exists post, s = q ++ post.
Proof.
  revert s; induction q as [|a q IH]; intros s.
  - destruct s; simpl; split; eauto.
  - destruct s as [|b s]; cbn [String.prefix].
    + split; [discriminate | intros [post Hp]; discriminate].
    + destruct (ascii_dec a b) as [->|Hne].
      * rewrite IH. split; intros [post Hp]; exists post;
          rewrite append_cons in *; congruence.
      * split; [discriminate |].
        intros [post Hp]. rewrite append_cons in Hp. congruence.
Qed.

Lemma contains_Substring (q s : string) :
  Py.contains q s = true <-> Substring q s.
Proof.
  unfold Substring. induction s as [|b s IH]; cbn [Py.contains].
  - rewrite orb_false_r, prefix_app. split.
    + intros [post Hp]. exists "", post. exact Hp.
    + intros [[|c pre] [post Hp]].
      * rewrite append_nil in Hp. eauto.
      * rewrite append_cons in Hp. discriminate.
  - rewrite orb_true_iff, prefix_app, IH. split.
    + intros [[post Hp] | [pre [post Hp]]].
      * exists "", post. exact Hp.
      * exists (String b pre), post. rewrite append_cons. congruence.
    + intros [[|c pre] [post Hp]].
      * left. rewrite append_nil in Hp. eauto.
      * right. rewrite append_cons in Hp. exists pre, post. congruence.
Qed.

(** Decimal digits and the minus sign have no upper case. *)
Lemma lower_string_of_uint (d : Decimal.uint) :
  Py.lower (NilEmpty.string_of_uint d) = NilEmpty.string_of_uint d.
Proof.
  induction d as [|d IH|d IH|d IH|d IH|d IH|d IH|d IH|d IH|d IH|d IH];
    cbn [NilEmpty.string_of_uint Py.lower];
    [reflexivity | rewrite IH; reflexivity ..].
Qed.

Lemma lower_str_int (n : Z) : Py.lower (Py.str_int n) = Py.str_int n.
Proof.
  unfold Py.str_int, NilZero.string_of_int, NilZero.string_of_uint.
  destruct (Z.to_int n) as [d|d]; destruct d;
    try reflexivity; cbn [Py.lower];
    rewrite ?lower_string_of_uint; try reflexivity;
    (cbn [NilEmpty.string_of_uint Py.lower];
     rewrite lower_string_of_uint; reflexivity).
Qed.

Lemma to_int_proper (n : Z) :
  Z.to_int n <> Decimal.Pos Decimal.Nil /\ Z.to_int n <> Decimal.Neg Decimal.Nil.
Proof.
  destruct n as [|p|p]; simpl; split; try discriminate;
    intros [= H]; exact (DecimalPos.Unsigned.to_uint_nonnil p H).
Qed.

Lemma str_int_parse (n : Z) :
  NilZero.int_of_string (Py.str_int n) = Some (Z.to_int n).
Proof.
  destruct (to_int_proper n) as [Hp Hn]. apply NilZero.isi; assumption.
Qed.

Lemma str_int_inj (n n' : Z) : Py.str_int n = Py.str_int n' -> n = n'.
Proof.
  intros H. apply (f_equal NilZero.int_of_string) in H.
  rewrite !str_int_parse in H. injection H as H.
  apply DecimalZ.to_int_inj, H.
Qed.

(** The lowercase text of an optional integer determines it. *)
Lemma lower_str_opt_int_inj (v v' : option Z) :
  Py.lower (Py.str_opt_int v) = Py.lower (Py.str_opt_int v') -> v = v'.
Proof.
  destruct v as [n|], v' as [n'|]; cbn [Py.str_opt_int];
    rewrite ?lower_str_int; intros H.
  - f_equal. apply str_int_inj, H.
  - apply (f_equal NilZero.int_of_string) in H.
    rewrite str_int_parse in H. discriminate.
  - apply (f_equal NilZero.int_of_string) in H.
    rewrite str_int_parse in H. discriminate.
  - reflexivity.
Qed.

Lemma contains_empty_r (q : string) : Py.contains q "" = true -> q = "".
Proof. destruct q; simpl; [reflexivity | discriminate]. Qed.

End PyStrings.

(** * The filter predicate *)

Section Filter.

Lemma store_set_library_child (w : CartridgesWindow) :
  store (set_library_child w) = store w.
Proof.
  unfold set_library_child. destruct (set_library_child_loop (store w)).
  reflexivity.
Qed.

Lemma filter_text_query (w : CartridgesWindow) :
  filter_text w = Py.lower (active_query w).
Proof. reflexivity. Qed.

(** The developer part of the test, read as a proposition. *)
Lemma developer_match (text : string) (G : Game) :
  text <> "" ->
  (if Py.truthy (developer G)
   then match developer G with
        | Some d => Py.contains text (Py.lower d)
        | None => false
        end
   else false) = true
  <-> exists d, developer G = Some d /\ Substring text (Py.lower d).
Proof.
  intros Hne. destruct (developer G) as [[|c d]|]; simpl Py.truthy; cbv iota.
  - split; [discriminate |].
    intros [d [Hd Hs]]. injection Hd as <-.
    apply contains_Substring, contains_empty_r in Hs. contradiction.
  - rewrite contains_Substring. split.
    + intros Hs. eauto.
    + intros [d' [Hd Hs]]. injection Hd as <-. exact Hs.
  - split; [discriminate | intros [d [Hd _]]; discriminate].
Qed.

Lemma filter_filtered_false (text : string) (G : Game) :
  filter_filtered text G = false
  <-> text = ""
      \/ Substring text (Py.lower (name G))
      \/ exists d, developer G = Some d /\ Substring text (Py.lower d).
Proof.
  unfold filter_filtered.
  destruct (String.eqb_spec text "") as [->|Hne]; simpl negb.
  - rewrite andb_false_l. tauto.
  - rewrite andb_true_l, negb_false_iff, orb_true_iff.
    rewrite contains_Substring, (developer_match text G Hne). tauto.
Qed.

End Filter.

(** What a write of the [filtered] flag leaves of a game. *)
Lemma set_filtered_spec (v : bool) (G : Game) :
  filtered (set_filtered v G) = v /\ same_game_but_filtered G (set_filtered v G).
Proof. unfold same_game_but_filtered. repeat split; reflexivity. Qed.

(** A store entry written by [set_filtered], read field by field. *)
Lemma lookup_set_filtered (games : list Game) (child : GameRef) (v : bool)
    (G : Game) :
  games !! child = Some (set_filtered v G) ->
  exists G', games !! child = Some G'
             /\ filtered G' = v /\ same_game_but_filtered G G'.
Proof.
  intros Hl. exists (set_filtered v G).
  split; [exact Hl | apply set_filtered_spec].
Qed.

(** C1: [filter_func] keeps a game exactly when the active query is empty,
    or its lowercase form occurs in the lowercase name, or the game has a
    developer whose lowercase form contains it; and after the call the
    [filtered] field of the game holds the negation of the returned flag,
    the other fields of the game being as they were. *)
Theorem filter_func_keeps_iff (w : CartridgesWindow) (child : GameRef) (G : Game) :
  store w !! child = Some G ->
  let Q := active_query w in
  let w' := fst (filter_func child w) in
  let keep := snd (filter_func child w) in
  (keep = true
   <-> Q = ""
       \/ Substring (Py.lower Q) (Py.lower (name G))
       \/ exists d, developer G = Some d
                    /\ Substring (Py.lower Q) (Py.lower d))
  /\ exists G', store w' !! child = Some G'
                /\ filtered G' = negb keep
                /\ same_game_but_filtered G G'.
Proof.
  intros HG Q w' keep. subst w' keep. unfold filter_func. rewrite HG.
  cbn [fst snd]. split.
  - rewrite negb_true_iff, filter_filtered_false, filter_text_query.
    fold Q. rewrite lower_empty. tauto.
  - exists (set_filtered (filter_filtered (filter_text w) G) G).
    rewrite negb_involutive. split; [| apply set_filtered_spec].
    rewrite store_set_library_child. cbn [store with_store].
    apply list_lookup_insert_eq. eapply lookup_lt_Some, HG.
Qed.

Lemma filter_func_keeps_iff_witness :
  let w := with_search_entry_text "mar" sample_window in
  filtered <$> store w !! 0%nat = Some false
  /\ snd (filter_func 0%nat w) = false
  /\ filtered <$> store (fst (filter_func 0%nat w)) !! 0%nat = Some true
  /\ name <$> store (fst (filter_func 0%nat w)) !! 0%nat = Some "Zelda"
  /\ snd (filter_func 1%nat w) = true.
Proof.
  intros w.
  pose proof (filter_func_keeps_iff w 0%nat zelda eq_refl)
    as [_ (G' & Hl & Hf & Hn & _)].
  pose proof (filter_func_keeps_iff w 1%nat mario eq_refl) as [Hkeep _].
  assert (Hout : snd (filter_func 0%nat w) = false) by (vm_compute; reflexivity).
  assert (Hl' : store (fst (filter_func 0%nat w)) !! 0%nat = Some G')
    by exact Hl.
  split; [reflexivity |]. split; [exact Hout |].
  split; [rewrite Hl'; cbn; rewrite Hf, Hout; reflexivity |].
  split; [rewrite Hl'; cbn; rewrite Hn; reflexivity |].
  apply Hkeep. right. left. exists "", "io". vm_compute. reflexivity.
Defined.

(** * Placeholder selection *)

Section Placeholder.

(** One iteration, as a pair of equations. *)
Lemma body_cases (g : Game) (child hidden_child child' hidden_child' : Widget) :
  set_library_child_body (child, hidden_child) g = (child', hidden_child') ->
  (if removed g || blacklisted g then child
   else if hidden g then child
   else if filtered g && negb (bool_decide (child = scrolledwindow))
   then notice_no_results else scrolledwindow) = child'
  /\ (if removed g || blacklisted g then hidden_child
      else if hidden g then
        if filtered g && negb (bool_decide (hidden_child = hidden_scrolledwindow))
        then hidden_notice_no_results else hidden_scrolledwindow
      else hidden_child) = hidden_child'.
Proof.
  unfold set_library_child_body.
  destruct (removed g || blacklisted g), (hidden g),
    (filtered g && negb (bool_decide (child = scrolledwindow))),
    (filtered g && negb (bool_decide (hidden_child = hidden_scrolledwindow)));
    intros [= <- <-]; split; reflexivity.
Qed.

(** The loop from any intermediate pair of choices, library side. *)
Lemma loop_child (games : list Game) (child hidden_child : Widget) :
  fst (fold_left set_library_child_body games (child, hidden_child))
  = if bool_decide (child = scrolledwindow)
       || existsb (fun g => in_group false g && negb (filtered g)) games
    then scrolledwindow
    else if existsb (in_group false) games then notice_no_results
    else child.
Proof.
  revert child hidden_child.
  induction games as [|g games IH]; intros child hidden_child.
  - simpl. rewrite orb_false_r. case_bool_decide; congruence.
  - cbn [fold_left existsb].
    destruct (set_library_child_body (child, hidden_child) g)
      as [child' hidden_child'] eqn:E.
    rewrite IH. apply body_cases in E. unfold in_group.
    destruct (removed g), (blacklisted g), (hidden g), (filtered g);
      cbn [orb andb negb Bool.eqb] in *;
      repeat case_bool_decide; cbn [negb orb andb] in *;
      destruct E as [<- <-]; subst;
      repeat case_bool_decide; try congruence;
      cbn [orb andb negb]; try reflexivity;
      destruct (existsb _ games); try reflexivity;
      destruct (existsb _ games); reflexivity.
Qed.

(** The same on the hidden side. *)
Lemma loop_hidden_child (games : list Game) (child hidden_child : Widget) :
  snd (fold_left set_library_child_body games (child, hidden_child))
  = if bool_decide (hidden_child = hidden_scrolledwindow)
       || existsb (fun g => in_group true g && negb (filtered g)) games
    then hidden_scrolledwindow
    else if existsb (in_group true) games then hidden_notice_no_results
    else hidden_child.
Proof.
  revert child hidden_child.
  induction games as [|g games IH]; intros child hidden_child.
  - simpl. rewrite orb_false_r. case_bool_decide; congruence.
  - cbn [fold_left existsb].
    destruct (set_library_child_body (child, hidden_child) g)
      as [child' hidden_child'] eqn:E.
    rewrite IH. apply body_cases in E. unfold in_group.
    destruct (removed g), (blacklisted g), (hidden g), (filtered g);
      cbn [orb andb negb Bool.eqb] in *;
      repeat case_bool_decide; cbn [negb orb andb] in *;
      destruct E as [<- <-]; subst;
      repeat case_bool_decide; try congruence;
      cbn [orb andb negb]; try reflexivity;
      destruct (existsb _ games); try reflexivity;
      destruct (existsb _ games); reflexivity.
Qed.

Lemma loop_spec (games : list Game) :
  set_library_child_loop games
  = (spec_placeholder false games, spec_placeholder true games).
Proof.
  unfold set_library_child_loop, spec_placeholder.
  rewrite (surjective_pairing (fold_left _ _ _)).
  rewrite loop_child, loop_hidden_child. reflexivity.
Qed.

Lemma existsb_Permutation {A} (P : A -> bool) (l l' : list A) :
  Permutation l l' -> existsb P l = existsb P l'.
Proof.
  induction 1 as [|x l l' _ IH|x y l|l l' l'' _ IH1 _ IH2]; simpl.
  - reflexivity.
  - rewrite IH. reflexivity.
  - destruct (P x), (P y); reflexivity.
  - congruence.
Qed.

Lemma existsb_map_flags (P : bool * bool * bool * bool -> bool) (l : list Game) :
  existsb (fun g => P (flags g)) l = existsb P (map flags l).
Proof.
  induction l as [|g l IH]; cbn [map existsb]; [reflexivity |].
  rewrite IH. reflexivity.
Qed.

(** The choice depends on the games only through the multiset of their
    flag tuples. *)
Lemma spec_placeholder_flags (hid : bool) (l l' : list Game) :
  Permutation (map flags l) (map flags l') ->
  spec_placeholder hid l = spec_placeholder hid l'.
Proof.
  intros Hp. unfold spec_placeholder.
  pose proof (existsb_map_flags
    (fun '(h, r, b, f) => negb (r || b) && Bool.eqb h hid && negb f)) as H1.
  pose proof (existsb_map_flags
    (fun '(h, r, b, _) => negb (r || b) && Bool.eqb h hid)) as H2.
  unfold flags at 1 in H1. unfold flags at 1 in H2. cbv beta iota in H1, H2.
  unfold in_group. rewrite !H1, !H2.
  rewrite (existsb_Permutation _ _ _ Hp).
  rewrite (existsb_Permutation
    (fun '(h, r, b, _) => negb (r || b) && Bool.eqb h hid) _ _ Hp).
  reflexivity.
Qed.

Lemma set_library_child_bins (w : CartridgesWindow) :
  library_bin_child (set_library_child w) = spec_placeholder false (store w)
  /\ hidden_library_bin_child (set_library_child w)
     = spec_placeholder true (store w).
Proof.
  unfold set_library_child. rewrite loop_spec. split; reflexivity.
Qed.

End Placeholder.

(** C4: for each of the two views, [set_library_child] shows the scroll
    container if some game of the group (not removed, not blacklisted) is not
    filtered, else the no-results notice if the group is not empty, else the
    empty notice. The choice depends on the store only through the flag
    tuples of its games, in any order, and running the selection again on
    the result changes nothing. *)
Theorem set_library_child_selection (w : CartridgesWindow) :
  library_bin_child (set_library_child w) = spec_placeholder false (store w)
  /\ hidden_library_bin_child (set_library_child w)
     = spec_placeholder true (store w)
  /\ (forall w' : CartridgesWindow,
        Permutation (map flags (store w)) (map flags (store w')) ->
        library_bin_child (set_library_child w')
        = library_bin_child (set_library_child w)
        /\ hidden_library_bin_child (set_library_child w')
           = hidden_library_bin_child (set_library_child w))
  /\ set_library_child (set_library_child w) = set_library_child w.
Proof.
  destruct (set_library_child_bins w) as [Hl Hh].
  split; [exact Hl |]. split; [exact Hh |]. split.
  - intros w' Hp. destruct (set_library_child_bins w') as [Hl' Hh'].
    rewrite Hl, Hh, Hl', Hh'.
    split; symmetry; apply spec_placeholder_flags, Hp.
  - unfold set_library_child at 1. rewrite store_set_library_child.
    unfold set_library_child.
    destruct (set_library_child_loop (store w)). reflexivity.
Qed.

Lemma set_library_child_selection_witness :
  let w := with_store [zelda; set_filtered true mario] sample_window in
  let w' := with_store [set_filtered true mario; zelda] sample_window in
  Permutation (map flags (store w)) (map flags (store w'))
  /\ library_bin_child (set_library_child w') = scrolledwindow
  /\ hidden_library_bin_child (set_library_child w') = hidden_notice_empty.
Proof.
  intros w w'.
  assert (Hp : Permutation (map flags (store w)) (map flags (store w'))).
  { vm_compute. apply perm_swap. }
  destruct (set_library_child_selection w) as (Hl & Hh & Hperm & _).
  destruct (Hperm w' Hp) as [Hl' Hh'].
  split; [exact Hp |]. split.
  - etrans; [exact Hl' | vm_compute; reflexivity].
  - etrans; [exact Hh' | vm_compute; reflexivity].
Defined.

(** * The sort comparator *)

Section Sort.

Lemma gt_lt (a b : string) : Py.gt a b = true <-> StringOrder.lt b a.
Proof.
  unfold Py.gt. rewrite <- StringOrder.cmp_lt.
  rewrite (StringOrder.cmp_antisym b a). unfold StringOrder.cmp.
  destruct (String.compare a b); simpl; split; congruence.
Qed.

Lemma gt_not_lt (a b : string) : Py.gt a b = false <-> ~ StringOrder.lt b a.
Proof.
  rewrite <- gt_lt. destruct (Py.gt a b); split; congruence.
Qed.

(** The two stages of [sort_func] as one expression. *)
Lemma sort_func_unfold (w : CartridgesWindow) (a b : Game) :
  sort_func w a b
  = let var := fst (sort_key (sort_state w)) in
    let order := snd (sort_key (sort_state w)) in
    if negb (bool_decide (var = attr_name))
       && String.eqb (get_value var a) (get_value var b)
    then (if Py.gt (get_value attr_name a) (get_value attr_name b)
          then -1 else 1)
    else (if xorb (Py.gt (get_value var a) (get_value var b)) order
          then 1 else -1).
Proof.
  unfold sort_func. destruct (sort_key (sort_state w)) as [var order].
  cbn [fst snd].
  destruct (negb (bool_decide (var = attr_name))
            && String.eqb (get_value var a) (get_value var b)).
  - destruct (Py.gt _ _); reflexivity.
  - destruct (Py.gt _ _), order; reflexivity.
Qed.

Lemma sort_func_values (w : CartridgesWindow) (a b : Game) :
  sort_func w a b = -1 \/ sort_func w a b = 1.
Proof.
  rewrite sort_func_unfold. cbv zeta.
  repeat match goal with
         | |- context [if ?c then _ else _] => destruct c
         end; auto.
Qed.

Lemma sort_func_Placed (first : bool) (w : CartridgesWindow) (a b : Game) :
  sort_func w a b = (if first then -1 else 1)
  <-> Placed first (fst (sort_key (sort_state w)))
        (snd (sort_key (sort_state w))) a b.
Proof.
  rewrite sort_func_unfold. cbv zeta.
  destruct (sort_key (sort_state w)) as [var order]. cbn [fst snd].
  unfold Placed, holds.
  destruct var; cbv zeta;
    [ rewrite bool_decide_eq_true_2 by reflexivity
    | rewrite bool_decide_eq_false_2 by discriminate
    | rewrite bool_decide_eq_false_2 by discriminate ];
    cbn [negb andb];
    [ | destruct (String.eqb_spec (get_value attr_added a)
                    (get_value attr_added b)) as [He|Hne]
      | destruct (String.eqb_spec (get_value attr_last_played a)
                    (get_value attr_last_played b)) as [He|Hne] ];
    repeat match goal with
           | |- context [Py.gt ?x ?y] =>
               let E := fresh "E" in
               destruct (Py.gt x y) eqn:E;
               [apply gt_lt in E | apply gt_not_lt in E]
           end;
    destruct order, first; cbn [xorb Bool.eqb]; split; intros H;
      try discriminate; try reflexivity; try tauto.
Qed.

(** Each answer of the comparator is a transitive relation on games. *)
Lemma Placed_trans (first : bool) (var : Attr) (order : bool) (a b c : Game) :
  Placed first var order a b -> Placed first var order b c ->
  Placed first var order a c.
Proof.
  unfold Placed, holds. cbv zeta.
  destruct var, order, first; cbn [Bool.eqb];
    try (intros; StringOrderFacts.order);
    (intros [[He1 Hn1]|[Hk1 Ho1]] [[He2 Hn2]|[Hk2 Ho2]];
     [ left; split; [congruence | StringOrderFacts.order]
     | right; split; StringOrderFacts.order
     | right; split; StringOrderFacts.order
     | right; split; StringOrderFacts.order ]).
Qed.

(** Swapping two games with different names flips the answer. *)
Lemma Placed_swap (first : bool) (var : Attr) (order : bool) (a b : Game) :
  get_value attr_name a <> get_value attr_name b ->
  Placed first var order a b -> Placed (negb first) var order b a.
Proof.
  unfold Placed, holds. cbv zeta. intros Hn.
  destruct var, order, first; cbn [Bool.eqb negb];
    try (intros; StringOrderFacts.order);
    (intros [[He1 Hn1]|[Hk1 Ho1]];
     [ left; split; [congruence | StringOrderFacts.order]
     | right; split; [congruence | StringOrderFacts.order] ]).
Qed.

End Sort.

(** C2, as the code has it: in the [last_played] mode the game whose
    [last_played] text (the lowercase of [str(last_played)]) is greater comes
    first, and two games with equal (or both absent) [last_played] are
    ordered by name, again the greater lowercase name first. The comparator
    answers [-1] to place its first argument before the second. *)
Theorem sort_func_last_played (w : CartridgesWindow) (a b : Game) :
  sort_state w = "last_played" ->
  (last_played a = last_played b ->
   sort_func w a b
   = if Py.gt (get_value attr_name a) (get_value attr_name b) then -1 else 1)
  /\ (last_played a <> last_played b ->
      sort_func w a b
      = if Py.gt (get_value attr_last_played a) (get_value attr_last_played b)
        then -1 else 1).
Proof.
  intros Hs. rewrite sort_func_unfold, Hs. cbv zeta.
  change (sort_key "last_played") with (attr_last_played, true).
  cbn [fst snd]. rewrite bool_decide_eq_false_2 by discriminate.
  cbn [negb andb]. split; intros Hlp.
  - unfold get_value at 1 2. rewrite Hlp, String.eqb_refl. reflexivity.
  - destruct (String.eqb_spec (get_value attr_last_played a)
                (get_value attr_last_played b)) as [He|Hne].
    + apply lower_str_opt_int_inj in He. contradiction.
    + destruct (Py.gt _ _); reflexivity.
Qed.

Lemma sort_func_last_played_witness :
  let w := with_sort_state "last_played" sample_window in
  sort_func w (played "a" 1700000000) (played "b" 1700000000) = 1
  /\ sort_func w (played "b" 1700000500) (played "a" 1700000000) = -1.
Proof.
  intros w.
  destruct (sort_func_last_played w (played "a" 1700000000)
              (played "b" 1700000000) eq_refl) as [Htie _].
  destruct (sort_func_last_played w (played "b" 1700000500)
              (played "a" 1700000000) eq_refl) as [_ Hkey].
  split.
  - rewrite (Htie eq_refl). vm_compute. reflexivity.
  - rewrite Hkey by discriminate. vm_compute. reflexivity.
Defined.

(** C2 as stated fails: the game played earlier is placed after the one
    played later, and of two games played at the same time the one whose
    name comes first in the alphabet is placed last. *)
Lemma sort_func_last_played_not_ascending :
  let w := with_sort_state "last_played" sample_window in
  1700000000 < 1700000500
  /\ sort_func w (played "a" 1700000000) (played "b" 1700000500) = 1
  /\ sort_func w (played "b" 1700000500) (played "a" 1700000000) = -1
  /\ sort_func w (played "a" 1700000000) (played "b" 1700000000) = 1
  /\ sort_func w (played "b" 1700000000) (played "a" 1700000000) = -1.
Proof. vm_compute. repeat split; reflexivity. Qed.

(** Swapping two games that differ in the name or in the key negates the
    answer. *)
Lemma Placed_swap_key (first : bool) (var : Attr) (order : bool) (a b : Game) :
  get_value attr_name a <> get_value attr_name b
  \/ get_value var a <> get_value var b ->
  Placed first var order a b -> Placed (negb first) var order b a.
Proof.
  unfold Placed, holds. cbv zeta. intros Hn.
  destruct var, order, first; cbn [Bool.eqb negb];
    try (intros; destruct Hn; StringOrderFacts.order);
    (intros [[He1 Hn1]|[Hk1 Ho1]];
     [ left; split; [congruence |];
       destruct Hn as [Hn|Hn]; [StringOrderFacts.order | congruence]
     | right; split; [congruence | StringOrderFacts.order] ]).
Qed.

(** Two games tied on the name and on the key get the same answer in both
    orders. *)
Lemma sort_func_tied (w : CartridgesWindow) (a b : Game) :
  get_value attr_name a = get_value attr_name b ->
  get_value (fst (sort_key (sort_state w))) a
  = get_value (fst (sort_key (sort_state w))) b ->
  sort_func w a b = sort_func w b a.
Proof.
  intros Hn Hk. rewrite !sort_func_unfold. cbv zeta. rewrite Hn, Hk.
  reflexivity.
Qed.

(** C3, as the code has it: in every mode the comparator answers [-1] or
    [1] and never [0]; swapping two games negates the answer exactly when
    they differ in the lowercase name or in the lowercase text of the key
    of the mode, and two games tied on both get the same answer in both
    orders; and each answer is transitive. *)
Theorem sort_func_order_laws (w : CartridgesWindow) (a b c : Game) :
  let var := fst (sort_key (sort_state w)) in
  (sort_func w a b = -1 \/ sort_func w a b = 1)
  /\ (sort_func w a b = - sort_func w b a
      <-> get_value attr_name a <> get_value attr_name b
          \/ get_value var a <> get_value var b)
  /\ (sort_func w a b = -1 -> sort_func w b c = -1 -> sort_func w a c = -1)
  /\ (sort_func w a b = 1 -> sort_func w b c = 1 -> sort_func w a c = 1).
Proof.
  intros var. split; [apply sort_func_values |]. split; [| split].
  - split.
    + intros Hneg.
      destruct (string_dec (get_value attr_name a) (get_value attr_name b))
        as [Hn|Hn]; [| left; exact Hn].
      destruct (string_dec (get_value var a) (get_value var b))
        as [Hk|Hk]; [| right; exact Hk].
      exfalso. rewrite <- (sort_func_tied w a b Hn Hk) in Hneg.
      destruct (sort_func_values w a b) as [H|H]; rewrite H in Hneg;
        discriminate.
    + intros Hn. destruct (sort_func_values w a b) as [H|H]; rewrite H.
      * apply (sort_func_Placed true), (Placed_swap_key true),
          (sort_func_Placed false) in H; [| exact Hn].
        cbn [negb] in H. rewrite H. reflexivity.
      * apply (sort_func_Placed false), (Placed_swap_key false),
          (sort_func_Placed true) in H; [| exact Hn].
        cbn [negb] in H. rewrite H. reflexivity.
  - intros Hab Hbc. apply (sort_func_Placed true).
    apply (sort_func_Placed true) in Hab, Hbc.
    exact (Placed_trans true _ _ a b c Hab Hbc).
  - intros Hab Hbc. apply (sort_func_Placed false).
    apply (sort_func_Placed false) in Hab, Hbc.
    exact (Placed_trans false _ _ a b c Hab Hbc).
Qed.

Lemma sort_func_order_laws_witness :
  let w := sample_window in
  let zork := played "Zork" 1700000000 in
  let doom := mkGame "Doom" None 1993 None false false false false false in
  let doom' := mkGame "Doom" None 2016 None false false false false false in
  sort_func w mario zelda = - sort_func w zelda mario
  /\ sort_func (with_sort_state "newest" w) doom doom'
     = - sort_func (with_sort_state "newest" w) doom' doom
  /\ sort_func w mario zork = -1
  /\ sort_func w zork mario = 1.
Proof.
  intros w zork doom doom'.
  destruct (sort_func_order_laws w mario zelda zork) as (_ & Hswap & Hbefore & _).
  destruct (sort_func_order_laws w zork zelda mario) as (_ & _ & _ & Hafter).
  destruct (sort_func_order_laws (with_sort_state "newest" w) doom doom' doom)
    as (_ & Hkey & _).
  split; [| split; [| split]].
  - apply Hswap. left. vm_compute. discriminate.
  - apply Hkey. right. vm_compute. discriminate.
  - apply Hbefore; vm_compute; reflexivity.
  - apply Hafter; vm_compute; reflexivity.
Defined.

(** C3 as stated fails: a game compared with itself does not give [0], so
    the answer is not the negation of the swapped comparison. *)
Lemma sort_func_not_antisymmetric :
  sort_func sample_window zelda zelda = -1
  /\ sort_func sample_window zelda zelda <> - sort_func sample_window zelda zelda
  /\ sort_func (with_sort_state "newest" sample_window) zelda zelda = 1.
Proof. vm_compute. repeat split; discriminate. Qed.

(** * Navigation *)

Section Navigation.

Context `{Collaborators}.

Lemma nav_set_library_child (w : CartridgesWindow) :
  nav (set_library_child w) = nav w.
Proof.
  unfold set_library_child. destruct (set_library_child_loop (store w)).
  reflexivity.
Qed.

Lemma nav_filter_func (child : GameRef) (w : CartridgesWindow) :
  nav (fst (filter_func child w)) = nav w.
Proof.
  unfold filter_func. destruct (store w !! child); [| reflexivity].
  cbn [fst]. rewrite nav_set_library_child. reflexivity.
Qed.

Lemma nav_invalidate_filter (children : list GameRef) (w : CartridgesWindow) :
  nav (invalidate_filter children w) = nav w.
Proof.
  unfold invalidate_filter. revert w.
  induction children as [|child children IH]; intros w; cbn [fold_left].
  - reflexivity.
  - rewrite IH. apply nav_filter_func.
Qed.

Lemma nav_search_entry_set_text_empty (hidden : bool) (w : CartridgesWindow) :
  nav (search_entry_set_text_empty hidden w) = nav w.
Proof.
  unfold search_entry_set_text_empty, search_changed.
  destruct hidden;
    [destruct (String.eqb (hidden_search_entry_text w) "")
    | destruct (String.eqb (search_entry_text w) "")];
    try reflexivity; rewrite nav_invalidate_filter; reflexivity.
Qed.

Lemma nav_on_toggle_search_action (w : CartridgesWindow) :
  nav (on_toggle_search_action w) = nav w.
Proof.
  unfold on_toggle_search_action.
  repeat case_bool_decide; try reflexivity;
    cbv zeta; rewrite nav_search_entry_set_text_empty;
    [destruct (search_bar_search_mode w)
    | destruct (hidden_search_bar_search_mode w)]; reflexivity.
Qed.

Lemma nav_navigate (page : Page) (w : CartridgesWindow) :
  nav (navigate page w)
  = (page, match page with details_view => previous_page w | _ => page end).
Proof. destruct page; reflexivity. Qed.

Lemma nav_on_sort_action (state : string) (w : CartridgesWindow) :
  nav (on_sort_action state w) = nav w.
Proof. reflexivity. Qed.

Section Invariant.

Variable P : CartridgesWindow -> Prop.
Hypothesis P_nav : navigation_only P.
Hypothesis P_navigate : forall page w, P w -> P (navigate page w).
Hypothesis P_collaborators : collaborators_preserve P.

Lemma P_on_go_to_parent_action w : P w -> P (on_go_to_parent_action w).
Proof.
  intros Hw. unfold on_go_to_parent_action.
  case_bool_decide; [apply P_navigate |]; exact Hw.
Qed.

Lemma P_on_go_back_action w : P w -> P (on_go_back_action w).
Proof.
  intros Hw. unfold on_go_back_action.
  repeat case_bool_decide;
    [apply P_navigate | apply P_on_go_to_parent_action |]; exact Hw.
Qed.

Lemma P_show_details_view game w : P w -> P (show_details_view game w).
Proof.
  intros Hw. unfold show_details_view.
  assert (Ha : P (with_active_game (Some game) w))
    by (apply (P_nav w); [reflexivity | exact Hw]).
  destruct (negb _); [| exact Ha].
  apply (P_nav (navigate details_view (with_active_game (Some game) w)));
    [reflexivity | apply P_navigate, Ha].
Qed.

Lemma P_show_details_view_search_loop children w :
  P w -> P (show_details_view_search_loop children w).
Proof.
  revert w. induction children as [|child children IH]; intros w Hw;
    cbn [show_details_view_search_loop]; [exact Hw |].
  pose proof (nav_filter_func child w) as Hn.
  destruct (filter_func child w) as [w1 keep]. cbn [fst] in Hn.
  assert (H1 : P w1) by (apply (P_nav w); [symmetry; exact Hn | exact Hw]).
  destruct keep; [apply P_show_details_view | apply IH]; exact H1.
Qed.

Lemma P_undo_game game undo w : P w -> P (fst (undo_game game undo w)).
Proof.
  intros Hw. destruct P_collaborators as (Ht & Hs & Hu & _).
  unfold undo_game. cbv zeta.
  set (w1 := undo_reversal game undo w).
  assert (H1 : P w1).
  { subst w1. unfold undo_reversal. repeat case_bool_decide.
    - apply Ht, Hw.
    - apply Hu, Hs. apply (P_nav w); [reflexivity | exact Hw].
    - exact Hw. }
  destruct (dict_get (game, undo) (toasts w1)); cbn [fst]; [| exact H1].
  apply (P_nav w1); [reflexivity | exact H1].
Qed.

Lemma P_on_undo_action game undo w :
  P w -> P (fst (on_undo_action game undo w)).
Proof.
  intros Hw. destruct P_collaborators as (_ & _ & _ & Hi).
  unfold on_undo_action. destruct game as [g|].
  - apply P_undo_game, Hw.
  - destruct (importer_pending w); [apply Hi, Hw |].
    destruct (dict_last_key (toasts w)) as [[g u]|];
      [apply P_undo_game |]; exact Hw.
Qed.

(** Every handler keeps a navigation property that [navigate] and the
    collaborators keep. *)
Lemma P_step w a : P w -> P (step w a).
Proof.
  intros Hw. destruct a; cbn [step].
  - apply (P_nav w); [symmetry; apply nav_set_library_child | exact Hw].
  - apply (P_nav w); [symmetry; apply nav_invalidate_filter | exact Hw].
  - apply (P_nav w); [symmetry; apply nav_filter_func | exact Hw].
  - apply (P_nav w); [reflexivity | exact Hw].
  - apply P_show_details_view, Hw.
  - apply P_show_details_view_search_loop, Hw.
  - apply P_on_go_back_action, Hw.
  - apply P_on_go_to_parent_action, Hw.
  - apply P_navigate, Hw.
  - apply P_navigate, Hw.
  - apply (P_nav w); [symmetry; apply nav_on_sort_action | exact Hw].
  - apply (P_nav w); [symmetry; apply nav_on_toggle_search_action | exact Hw].
  - unfold on_escape_action. destruct (escape_condition w).
    + apply (P_nav w); [symmetry; apply nav_on_toggle_search_action | exact Hw].
    + apply P_on_go_back_action, Hw.
  - apply P_on_undo_action, Hw.
  - apply (P_nav w); [reflexivity | exact Hw].
Qed.

Lemma P_run actions w : P w -> P (run actions w).
Proof.
  unfold run. revert w.
  induction actions as [|a actions IH]; intros w Hw; cbn [fold_left];
    [exact Hw | apply IH, P_step, Hw].
Qed.

End Invariant.

Lemma previous_page_is_library_nav : navigation_only previous_page_is_library.
Proof.
  intros w w' Hn. unfold previous_page_is_library.
  injection Hn as _ <-. tauto.
Qed.

Lemma previous_page_is_library_navigate (page : Page) (w : CartridgesWindow) :
  previous_page_is_library w -> previous_page_is_library (navigate page w).
Proof.
  unfold previous_page_is_library, navigate.
  destruct page; cbn; tauto.
Qed.

Lemma previous_page_is_library_init (template : CartridgesWindow) :
  previous_page_is_library (init template).
Proof.
  apply (previous_page_is_library_nav
           (with_previous_page library_view
              (with_sort_state "a-z" (with_toasts [] template)))).
  - symmetry. apply nav_set_library_child.
  - left. reflexivity.
Qed.

Lemma hidden_page_remembered_nav : navigation_only hidden_page_remembered.
Proof.
  intros w w' Hn. unfold hidden_page_remembered.
  injection Hn as <- <-. tauto.
Qed.

Lemma hidden_page_remembered_navigate (page : Page) (w : CartridgesWindow) :
  hidden_page_remembered w -> hidden_page_remembered (navigate page w).
Proof.
  unfold hidden_page_remembered, navigate.
  destruct page; cbn; intros Hw; try discriminate; reflexivity.
Qed.

Lemma hidden_page_remembered_init (template : CartridgesWindow) :
  stack_visible_child template <> hidden_library_view ->
  hidden_page_remembered (init template).
Proof.
  intros Ht.
  apply (hidden_page_remembered_nav
           (with_previous_page library_view
              (with_sort_state "a-z" (with_toasts [] template)))).
  - symmetry. apply nav_set_library_child.
  - intros Hv. contradiction.
Qed.

End Navigation.

(** C8: [previous_page] is [library_view] after [__init__], every handler
    keeps it one of the two library pages, and so it is never the details
    page in any run of the window. The collaborators that [on_undo_action]
    calls are assumed to keep the property as well. *)
Theorem previous_page_never_details `{Collaborators} (template : CartridgesWindow) :
  collaborators_preserve previous_page_is_library ->
  previous_page (init template) = library_view
  /\ (forall w a, previous_page_is_library w -> previous_page_is_library (step w a))
  /\ (forall actions,
        previous_page_is_library (run actions (init template))
        /\ previous_page (run actions (init template)) <> details_view).
Proof.
  intros Hc.
  assert (Hstep : forall w a,
             previous_page_is_library w -> previous_page_is_library (step w a)).
  { intros w a. apply P_step;
      [ exact previous_page_is_library_nav
      | exact previous_page_is_library_navigate
      | exact Hc ]. }
  split; [| split].
  - exact (f_equal snd
             (nav_set_library_child
                (with_previous_page library_view
                   (with_sort_state "a-z" (with_toasts [] template))))).
  - exact Hstep.
  - intros actions.
    assert (Hr : previous_page_is_library (run actions (init template))).
    { apply P_run;
        [ exact previous_page_is_library_nav
        | exact previous_page_is_library_navigate
        | exact Hc
        | apply previous_page_is_library_init ]. }
    split; [exact Hr |].
    destruct Hr as [Hr|Hr]; rewrite Hr; discriminate.
Qed.

Lemma previous_page_never_details_witness :
  previous_page
    (@run idle [ShowHidden; ShowDetailsView 0%nat; Escape; GoHome]
       (init sample_template))
  <> details_view.
Proof.
  assert (Hc : @collaborators_preserve idle previous_page_is_library).
  { unfold collaborators_preserve. simpl. tauto. }
  destruct (@previous_page_never_details idle sample_template Hc)
    as (_ & _ & Hrun).
  exact (proj2 (Hrun [ShowHidden; ShowDetailsView 0%nat; Escape; GoHome])).
Defined.

(** C5: in every run of the window, leaving the details page with the back
    or the parent action shows [previous_page]; and when the details page
    was opened from the hidden library, both actions return to the hidden
    library. The stack is taken to start on a page other than the hidden
    library, and the collaborators to keep the two navigation properties. *)
Theorem details_back_lands_on_previous `{Collaborators}
    (template : CartridgesWindow) (actions : list Action) :
  collaborators_preserve previous_page_is_library ->
  collaborators_preserve hidden_page_remembered ->
  let w := run actions (init template) in
  (stack_visible_child w = details_view ->
   stack_visible_child (on_go_back_action w) = previous_page w
   /\ stack_visible_child (on_go_to_parent_action w) = previous_page w)
  /\ (stack_visible_child template <> hidden_library_view ->
      stack_visible_child w = hidden_library_view ->
      forall game : GameRef,
        let d := show_details_view game w in
        stack_visible_child d = details_view
        /\ stack_visible_child (on_go_back_action d) = hidden_library_view
        /\ stack_visible_child (on_go_to_parent_action d) = hidden_library_view).
Proof.
  intros Hc1 Hc2 w. split.
  - intros Hv.
    assert (Hp : previous_page_is_library w).
    { apply P_run;
        [ exact previous_page_is_library_nav
        | exact previous_page_is_library_navigate
        | exact Hc1
        | apply previous_page_is_library_init ]. }
    unfold on_go_back_action, on_go_to_parent_action. rewrite Hv.
    rewrite (bool_decide_eq_false_2 (details_view = hidden_library_view))
      by discriminate.
    rewrite (bool_decide_eq_true_2 (details_view = details_view))
      by reflexivity.
    destruct Hp as [Hp|Hp]; rewrite Hp; split; reflexivity.
  - intros Ht Hv game d.
    assert (Hp : hidden_page_remembered w).
    { apply P_run;
        [ exact hidden_page_remembered_nav
        | exact hidden_page_remembered_navigate
        | exact Hc2
        | apply hidden_page_remembered_init, Ht ]. }
    specialize (Hp Hv). clearbody w.
    assert (Hd : nav d = (details_view, hidden_library_view)).
    { subst d. unfold show_details_view.
      cbn [stack_visible_child with_active_game]. rewrite Hv.
      rewrite (bool_decide_eq_false_2 (hidden_library_view = details_view))
        by discriminate.
      cbn [negb].
      change (nav (set_focus details_view_play_button ?x)) with (nav x).
      rewrite nav_navigate. cbn [previous_page with_active_game].
      rewrite Hp. reflexivity. }
    injection Hd as Hdv Hdp.
    unfold on_go_back_action, on_go_to_parent_action. rewrite Hdv, Hdp.
    split; [reflexivity |]. split; reflexivity.
Qed.

Lemma details_back_lands_on_previous_witness :
  let w := @run idle [ShowHidden; ShowDetailsView 0%nat] (init sample_template) in
  let h := @run idle [ShowHidden] (init sample_template) in
  stack_visible_child w = details_view
  /\ stack_visible_child (on_go_back_action w) = hidden_library_view
  /\ stack_visible_child h = hidden_library_view
  /\ stack_visible_child (on_go_back_action (show_details_view 1%nat h))
     = hidden_library_view.
Proof.
  intros w h.
  assert (Hc1 : @collaborators_preserve idle previous_page_is_library).
  { unfold collaborators_preserve. simpl. tauto. }
  assert (Hc2 : @collaborators_preserve idle hidden_page_remembered).
  { unfold collaborators_preserve. simpl. tauto. }
  destruct (@details_back_lands_on_previous idle sample_template
              [ShowHidden; ShowDetailsView 0%nat] Hc1 Hc2) as [Hback _].
  destruct (@details_back_lands_on_previous idle sample_template
              [ShowHidden] Hc1 Hc2) as [_ Hfrom].
  split; [reflexivity |]. split.
  - etrans; [exact (proj1 (Hback eq_refl)) | reflexivity].
  - split; [reflexivity |].
    assert (Ht : stack_visible_child sample_template <> hidden_library_view)
      by discriminate.
    exact (proj1 (proj2 (Hfrom Ht eq_refl 1%nat))).
Defined.

(** * Escape *)

Section Escape.

(** The test of [on_escape_action] holds in three focus states: the focus
    is in one of the two search entries, or the window has no focus
    widget at all. *)
Lemma escape_condition_cases (w : CartridgesWindow) :
  escape_condition w = true
  <-> get_focus w = Some search_entry_inner
      \/ get_focus w = Some hidden_search_entry_inner
      \/ get_focus w = None.
Proof.
  unfold escape_condition, get_focus_child, get_focus.
  destruct (focus_widget w) as [f|];
    repeat case_bool_decide; cbn [orb]; intuition congruence.
Qed.

End Escape.

(** C6 at a window without a focus widget: the hidden library is shown, no
    search entry holds the focus, and Escape does not go back to the
    library; it runs the search toggle, which here turns the search of the
    hidden library on and moves the focus into its entry. *)
Theorem on_escape_action_without_focus :
  let w := @run idle [ShowHidden] (init sample_template) in
  get_focus w = None
  /\ get_focus_child search_entry_inner w = None
  /\ get_focus_child hidden_search_entry_inner w = None
  /\ hidden_search_bar_search_mode w = false
  /\ on_escape_action w = on_toggle_search_action w
  /\ stack_visible_child (on_escape_action w) = hidden_library_view
  /\ hidden_search_bar_search_mode (on_escape_action w) = true
  /\ get_focus (on_escape_action w) = Some hidden_search_entry_inner
  /\ stack_visible_child (on_go_back_action w) = library_view.
Proof. vm_compute. repeat split; reflexivity. Qed.

(** * Undo *)

Section Undo.

Context `{Collaborators}.

Lemma toasts_undo_reversal (game : GameRef) (undo : option string)
    (w : CartridgesWindow) :
  collaborators_keep_toasts ->
  toasts (undo_reversal game undo w) = toasts w.
Proof.
  intros (Ht & Hs & Hu). unfold undo_reversal.
  repeat case_bool_decide; rewrite ?Ht, ?Hu, ?Hs; reflexivity.
Qed.

(** A keyed undo whose key is missing after the reversal stops with
    [KeyError] in the state the reversal left. *)
Lemma undo_game_missing (game : GameRef) (undo : option string)
    (w : CartridgesWindow) :
  dict_get (game, undo) (toasts (undo_reversal game undo w)) = None ->
  undo_game game undo w
  = (undo_reversal game undo w, Py.Raised Py.KeyError).
Proof. intros Hk. unfold undo_game. cbv zeta. rewrite Hk. reflexivity. Qed.

End Undo.

(** X23: undo where the registry has nothing for it: the global undo with an
    empty registry and no pending importer batch returns without changing
    anything, while an undo for a key that is not in the registry applies
    the reversal of the action, leaves the registry as it was, and stops
    with [KeyError] at the registry lookup. *)
Theorem on_undo_action_no_entry `{Collaborators} (w : CartridgesWindow) :
  (importer_pending w = false -> toasts w = [] ->
   forall undo, on_undo_action None undo w = (w, Py.Returned))
  /\ (collaborators_keep_toasts ->
      forall game undo,
        dict_get (game, undo) (toasts w) = None ->
        on_undo_action (Some game) undo w
        = (undo_reversal game undo w, Py.Raised Py.KeyError)
        /\ toasts (undo_reversal game undo w) = toasts w).
Proof.
  split.
  - intros Hi Ht undo. unfold on_undo_action. rewrite Hi, Ht. reflexivity.
  - intros Hc game undo Hk.
    pose proof (toasts_undo_reversal game undo w Hc) as Ht.
    split; [| exact Ht].
    cbn [on_undo_action]. apply undo_game_missing. rewrite Ht. exact Hk.
Qed.

Lemma on_undo_action_no_entry_witness :
  @on_undo_action idle None None sample_window = (sample_window, Py.Returned)
  /\ @on_undo_action idle (Some 0%nat) (Some "remove") sample_window
     = (sample_window, Py.Raised Py.KeyError).
Proof.
  destruct (@on_undo_action_no_entry idle sample_window) as [Hglobal Hkeyed].
  split.
  - apply Hglobal; reflexivity.
  - assert (Hc : @collaborators_keep_toasts idle).
    { unfold collaborators_keep_toasts. simpl. tauto. }
    etrans; [exact (proj1 (Hkeyed Hc 0%nat (Some "remove") eq_refl)) |].
    vm_compute. reflexivity.
Defined.

(** C7 at a registry holding the toast of one hidden game: the undo for
    the key of that game returns and removes the entry; the same undo
    again, for the key that is now gone, does not return silently but stops
    with [KeyError] at the registry lookup, which the keyed path does not
    guard; the global undo on the emptied registry, whose lookup is
    guarded, returns and changes nothing. *)
Theorem on_undo_action_again_raises :
  let w := with_toasts [((0%nat, Some "hide"), 7%nat)] sample_window in
  let w1 := fst (@on_undo_action idle (Some 0%nat) (Some "hide") w) in
  snd (@on_undo_action idle (Some 0%nat) (Some "hide") w) = Py.Returned
  /\ toasts w1 = []
  /\ dismissed w1 = [7%nat]
  /\ snd (@on_undo_action idle (Some 0%nat) (Some "hide") w1)
     = Py.Raised Py.KeyError
  /\ @on_undo_action idle None None w1 = (w1, Py.Returned).
Proof. vm_compute. repeat split; reflexivity. Qed.

(** * Which search text the filter reads *)

Section FilterText.

Lemma filter_text_hidden (w : CartridgesWindow) :
  stack_visible_child w = hidden_library_view ->
  filter_text w = Py.lower (hidden_search_entry_text w).
Proof.
  intros Hv. unfold filter_text. rewrite Hv.
  rewrite bool_decide_eq_true_2 by reflexivity. reflexivity.
Qed.

Lemma filter_text_other (w : CartridgesWindow) :
  stack_visible_child w <> hidden_library_view ->
  filter_text w = Py.lower (search_entry_text w).
Proof.
  intros Hv. unfold filter_text.
  rewrite bool_decide_eq_false_2 by exact Hv. reflexivity.
Qed.

Lemma filter_func_result (child : GameRef) (w : CartridgesWindow) (G : Game) :
  store w !! child = Some G ->
  snd (filter_func child w) = negb (filter_filtered (filter_text w) G).
Proof. intros HG. unfold filter_func. rewrite HG. reflexivity. Qed.

Lemma filter_filtered_set_filtered (text : string) (b : bool) (G : Game) :
  filter_filtered text (set_filtered b G) = filter_filtered text G.
Proof. reflexivity. Qed.

Lemma set_filtered_twice (b b' : bool) (G : Game) :
  set_filtered b (set_filtered b' G) = set_filtered b G.
Proof. reflexivity. Qed.

Lemma filter_text_filter_func (child : GameRef) (w : CartridgesWindow) :
  filter_text (fst (filter_func child w)) = filter_text w.
Proof.
  unfold filter_func. destruct (store w !! child); [| reflexivity].
  cbn [fst]. unfold set_library_child.
  destruct (set_library_child_loop _). reflexivity.
Qed.

(** The store after one call of the filter. *)
Lemma store_filter_func (child : GameRef) (w : CartridgesWindow) :
  store (fst (filter_func child w))
  = match store w !! child with
    | Some G =>
        <[child := set_filtered (filter_filtered (filter_text w) G) G]> (store w)
    | None => store w
    end.
Proof.
  unfold filter_func. destruct (store w !! child); [| reflexivity].
  cbn [fst]. rewrite store_set_library_child. reflexivity.
Qed.

Lemma store_invalidate_filter_other (children : list GameRef)
    (w : CartridgesWindow) (child : GameRef) :
  ~ In child children ->
  store (invalidate_filter children w) !! child = store w !! child.
Proof.
  unfold invalidate_filter. revert w.
  induction children as [|c children IH]; intros w Hn; cbn [fold_left].
  - reflexivity.
  - rewrite IH by (intros Hin; apply Hn; right; exact Hin).
    rewrite store_filter_func. destruct (store w !! c); [| reflexivity].
    apply list_lookup_insert_ne. intros ->. apply Hn. left. reflexivity.
Qed.

(** Invalidating the filter of a flow box marks each of its children with
    the verdict for the text read from the visible page. *)
Lemma store_invalidate_filter (children : list GameRef)
    (w : CartridgesWindow) (child : GameRef) (G : Game) :
  In child children ->
  store w !! child = Some G ->
  store (invalidate_filter children w) !! child
  = Some (set_filtered (filter_filtered (filter_text w) G) G).
Proof.
  revert w G.
  induction children as [|c children IH]; intros w G Hin HG; [destruct Hin |].
  unfold invalidate_filter in *. cbn [fold_left].
  set (w1 := fst (filter_func c w)).
  assert (H1 : store w1 !! child
               = Some (if bool_decide (c = child)
                       then set_filtered (filter_filtered (filter_text w) G) G
                       else G)).
  { subst w1. rewrite store_filter_func. case_bool_decide as Hc.
    - subst c. rewrite HG. apply list_lookup_insert_eq.
      eapply lookup_lt_Some, HG.
    - destruct (store w !! c); [| exact HG].
      rewrite list_lookup_insert_ne by exact Hc. exact HG. }
  assert (Ht : filter_text w1 = filter_text w)
    by apply filter_text_filter_func.
  destruct (in_dec Nat.eq_dec child children) as [Hrest|Hrest].
  - rewrite (IH w1 _ Hrest H1), Ht.
    case_bool_decide; reflexivity.
  - pose proof (store_invalidate_filter_other children w1 child Hrest) as Ho.
    unfold invalidate_filter in Ho. rewrite Ho, H1.
    destruct Hin as [Hc|Hin]; [| contradiction].
    rewrite bool_decide_eq_true_2 by exact Hc. reflexivity.
Qed.

End FilterText.

(** C9: [filter_func] takes its text from the entry of the visible page,
    whatever list the item is in. While the hidden library is shown, the
    verdict on any game is the one for the hidden entry's text and does not
    depend on the text of the other entry, and invalidating the filter of
    the visible library then marks its items by the hidden entry's text; on
    any other page the same holds with the two entries exchanged. *)
Theorem filter_func_text_by_page (w : CartridgesWindow) (child : GameRef)
    (G : Game) :
  store w !! child = Some G ->
  (stack_visible_child w = hidden_library_view ->
   snd (filter_func child w)
   = negb (filter_filtered (Py.lower (hidden_search_entry_text w)) G)
   /\ (forall text,
         snd (filter_func child (with_search_entry_text text w))
         = snd (filter_func child w))
   /\ (In child (library_children w) ->
       store (search_changed false w) !! child
       = Some (set_filtered
                 (filter_filtered (Py.lower (hidden_search_entry_text w)) G) G)))
  /\ (stack_visible_child w <> hidden_library_view ->
      snd (filter_func child w)
      = negb (filter_filtered (Py.lower (search_entry_text w)) G)
      /\ (forall text,
            snd (filter_func child (with_hidden_search_entry_text text w))
            = snd (filter_func child w))
      /\ (In child (hidden_library_children w) ->
          store (search_changed true w) !! child
          = Some (set_filtered
                    (filter_filtered (Py.lower (search_entry_text w)) G) G))).
Proof.
  intros HG. split; intros Hv.
  - pose proof (filter_text_hidden w Hv) as Ht. split; [| split].
    + rewrite (filter_func_result child w G HG), Ht. reflexivity.
    + intros text.
      rewrite (filter_func_result child w G HG).
      rewrite (filter_func_result child (with_search_entry_text text w) G HG).
      rewrite Ht, (filter_text_hidden (with_search_entry_text text w) Hv).
      reflexivity.
    + intros Hin. unfold search_changed.
      rewrite (store_invalidate_filter _ w child G Hin HG), Ht. reflexivity.
  - pose proof (filter_text_other w Hv) as Ht. split; [| split].
    + rewrite (filter_func_result child w G HG), Ht. reflexivity.
    + intros text.
      rewrite (filter_func_result child w G HG).
      rewrite (filter_func_result child (with_hidden_search_entry_text text w) G HG).
      rewrite Ht, (filter_text_other (with_hidden_search_entry_text text w) Hv).
      reflexivity.
    + intros Hin. unfold search_changed.
      rewrite (store_invalidate_filter _ w child G Hin HG), Ht. reflexivity.
Qed.

Lemma filter_func_text_by_page_witness :
  let w :=
    with_hidden_search_entry_text "xyz"
      (with_search_entry_text "zel"
         (@run idle [ShowHidden] (init sample_template))) in
  snd (filter_func 0%nat w) = false
  /\ store (search_changed false w) !! 0%nat = Some (set_filtered true zelda).
Proof.
  intros w.
  destruct (filter_func_text_by_page w 0%nat zelda eq_refl) as [Hhidden _].
  destruct (Hhidden eq_refl) as (Hres & _ & Hinv).
  split.
  - etrans; [exact Hres | vm_compute; reflexivity].
  - etrans; [apply Hinv; left; reflexivity | vm_compute; reflexivity].
Defined.

(** * The sort menu *)

(** C10: [on_sort_action] stores the new mode in [sort_state], which is the
    state the comparator of both flow boxes reads, and in the settings; it
    sorts the children of the library again with that comparator and leaves
    the children of the hidden library in the order they had. *)
Theorem on_sort_action_resorts_library_only `{Collaborators} (state : string)
    (w : CartridgesWindow) :
  let w' := on_sort_action state w in
  sort_state w' = Py.strip "'" (variant_str state)
  /\ (In state sort_modes -> sort_state w' = state)
  /\ sort_mode_setting w' = sort_state w'
  /\ library_children w' = flowbox_sort (sort_children w') (library_children w)
  /\ hidden_library_children w' = hidden_library_children w
  /\ invalidate_sort (hidden_library_children w') w'
     = flowbox_sort (sort_children w') (hidden_library_children w)
  /\ store w' = store w.
Proof.
  intros w'. split; [reflexivity |]. split.
  - intros Hin. subst w'. cbn [on_sort_action sort_state with_sort_mode_setting
      with_library_children with_sort_state].
    unfold sort_modes in Hin. cbn [In] in Hin.
    destruct Hin as [<-|[<-|[<-|[<-|[<-|[]]]]]]; reflexivity.
  - repeat split; reflexivity.
Qed.

Lemma on_sort_action_resorts_library_only_witness :
  let w := with_hidden_library_children [0%nat; 1%nat] sample_window in
  let w' := @on_sort_action sorting "z-a" w in
  sort_state w' = "z-a"
  /\ library_children w = [0%nat; 1%nat]
  /\ library_children w' = [0%nat; 1%nat]
  /\ library_children (@on_sort_action sorting "a-z" w') = [1%nat; 0%nat]
  /\ hidden_library_children (@on_sort_action sorting "a-z" w') = [0%nat; 1%nat].
Proof.
  intros w w'.
  destruct (@on_sort_action_resorts_library_only sorting "z-a" w)
    as (_ & Hmode & _).
  destruct (@on_sort_action_resorts_library_only sorting "a-z" w')
    as (_ & _ & _ & Hlib & Hhid & _).
  split; [apply Hmode; right; left; reflexivity |].
  split; [reflexivity |]. split; [vm_compute; reflexivity |]. split.
  - etrans; [exact Hlib | vm_compute; reflexivity].
  - etrans; [exact Hhid | vm_compute; reflexivity].
Defined.

(** * The examples of the specification, run on the model *)

Section Examples.

(** Sorting the library by name and by date. *)
Example sort_modes_on_sample :
  library_children (@on_sort_action sorting "a-z" sample_window) = [1%nat; 0%nat]
  /\ library_children (@on_sort_action sorting "z-a" sample_window) = [0%nat; 1%nat]
  /\ library_children (@on_sort_action sorting "newest" sample_window) = [1%nat; 0%nat]
  /\ library_children (@on_sort_action sorting "oldest" sample_window) = [0%nat; 1%nat].
Proof. vm_compute. repeat split; reflexivity. Qed.

(** The query "zel" keeps both games, one by its name and one by its
    developer. *)
Example query_zel_keeps_both :
  let w := search_changed false (with_search_entry_text "zel" sample_window) in
  map filtered (store w) = [false; false]
  /\ library_bin_child w = scrolledwindow.
Proof. vm_compute. split; reflexivity. Qed.

(** The query "xyz" filters both out and the library shows the no-results
    notice. *)
Example query_xyz_filters_both :
  let w := search_changed false (with_search_entry_text "xyz" sample_window) in
  map filtered (store w) = [true; true]
  /\ library_bin_child w = notice_no_results
  /\ hidden_library_bin_child w = hidden_notice_empty.
Proof. vm_compute. repeat split; reflexivity. Qed.

(** Undoing a removal clears the flag, dismisses the toast and forgets the
    entry. *)
Example undo_remove_on_sample :
  let w :=
    with_toasts [((1%nat, Some "remove"), 3%nat)]
      (with_store [zelda; set_removed true mario] sample_window) in
  @on_undo_action idle None None w
  = (with_dismissed [3%nat] sample_window, Py.Returned).
Proof. vm_compute. reflexivity. Qed.

End Examples.


(** * Further properties of the filter *)

Section FilterMore.

Lemma append_assoc (a b c : string) : (a ++ b) ++ c = a ++ b ++ c.
Proof.
  induction a as [|x a IH]; [reflexivity |].
  rewrite !append_cons, IH. reflexivity.
Qed.

Lemma Substring_trans (a b c : string) :
  Substring a b -> Substring b c -> Substring a c.
Proof.
  intros (p1 & s1 & ->) (p2 & s2 & ->).
  exists (p2 ++ p1), (s1 ++ s2). rewrite !append_assoc. reflexivity.
Qed.

Lemma Substring_empty (q : string) : Substring q "" -> q = "".
Proof. intros Hs. apply contains_empty_r, contains_Substring, Hs. Qed.

(** A shorter query filters no more than a longer one that contains it. *)
Lemma filter_filtered_monotone (text text' : string) (G : Game) :
  Substring text' text ->
  filter_filtered text G = false -> filter_filtered text' G = false.
Proof.
  intros Hs. rewrite !filter_filtered_false.
  intros [->|[Hn|(d & Hd & Hn)]].
  - left. apply Substring_empty, Hs.
  - right. left. exact (Substring_trans _ _ _ Hs Hn).
  - right. right. exists d. split; [exact Hd |].
    exact (Substring_trans _ _ _ Hs Hn).
Qed.

Lemma with_store_same (w : CartridgesWindow) : with_store (store w) w = w.
Proof. destruct w. reflexivity. Qed.

Lemma set_library_child_twice (w : CartridgesWindow) :
  set_library_child (set_library_child w) = set_library_child w.
Proof.
  unfold set_library_child at 1. rewrite store_set_library_child.
  unfold set_library_child. destruct (set_library_child_loop (store w)).
  reflexivity.
Qed.

Lemma set_library_child_in_sync (w : CartridgesWindow) :
  placeholders_in_sync (set_library_child w).
Proof.
  unfold placeholders_in_sync. rewrite store_set_library_child.
  apply set_library_child_bins.
Qed.

Lemma keeps_set_filtered (text : string) (games : list Game)
    (child c : GameRef) (b : bool) (G : Game) :
  games !! c = Some G ->
  keeps text (<[c := set_filtered b G]> games) child = keeps text games child.
Proof.
  intros HG. unfold keeps. destruct (decide (c = child)) as [->|Hne].
  - rewrite list_lookup_insert_eq by (eapply lookup_lt_Some, HG).
    rewrite HG. reflexivity.
  - rewrite list_lookup_insert_ne by exact Hne. reflexivity.
Qed.

(** Running the filter on one child does not change its verdict on any
    child. *)
Lemma keeps_filter_func (text : string) (c child : GameRef)
    (w : CartridgesWindow) :
  keeps text (store (fst (filter_func c w))) child = keeps text (store w) child.
Proof.
  rewrite store_filter_func. destruct (store w !! c) as [G|] eqn:HG;
    [apply keeps_set_filtered, HG | reflexivity].
Qed.

Lemma filter_func_keeps (child : GameRef) (w : CartridgesWindow) :
  snd (filter_func child w) = keeps (filter_text w) (store w) child.
Proof.
  unfold filter_func, keeps. destruct (store w !! child); reflexivity.
Qed.

End FilterMore.

(** X1: the filter can be called again on the same child at no cost: the
    second call returns the same flag and leaves the window as the first
    call left it. *)
Theorem filter_func_idempotent (child : GameRef) (w : CartridgesWindow) :
  filter_func child (fst (filter_func child w))
  = (fst (filter_func child w), snd (filter_func child w)).
Proof.
  unfold filter_func at 2 3 4. destruct (store w !! child) as [G|] eqn:HG.
  - cbn [fst snd].
    set (f := filter_filtered (filter_text w) G).
    set (w0 := with_store (<[child := set_filtered f G]> (store w)) w).
    assert (Hl : store (set_library_child w0) !! child = Some (set_filtered f G)).
    { rewrite store_set_library_child. subst w0. cbn [store with_store].
      apply list_lookup_insert_eq. eapply lookup_lt_Some, HG. }
    assert (Ht : filter_text (set_library_child w0) = filter_text w).
    { unfold set_library_child. destruct (set_library_child_loop _).
      reflexivity. }
    unfold filter_func. rewrite Hl, Ht.
    change (filter_filtered (filter_text w) (set_filtered f G)) with f.
    change (set_filtered f (set_filtered f G)) with (set_filtered f G).
    rewrite list_insert_id by exact Hl.
    rewrite with_store_same, set_library_child_twice. reflexivity.
  - cbn [fst snd]. unfold filter_func. rewrite HG. reflexivity.
Qed.

(** X2: a call of the filter on a game of the store writes the [filtered]
    flag of that game and the two bins and nothing else: the game keeps
    every other field, its flag is the negation of the returned flag, every
    other game is as it was, and the bins the call leaves are the ones
    selected for the flags now in the store. *)
Theorem filter_func_frame (child : GameRef) (w : CartridgesWindow) (G : Game) :
  store w !! child = Some G ->
  let w' := fst (filter_func child w) in
  length (store w') = length (store w)
  /\ (exists G', store w' !! child = Some G'
                 /\ same_game_but_filtered G G'
                 /\ filtered G' = negb (snd (filter_func child w)))
  /\ (forall other, other <> child -> store w' !! other = store w !! other)
  /\ placeholders_in_sync w'
  /\ w' = with_hidden_library_bin_child (hidden_library_bin_child w')
            (with_library_bin_child (library_bin_child w')
               (with_store (store w') w)).
Proof.
  intros HG w'. subst w'. unfold filter_func. rewrite HG. cbn [fst].
  set (w0 := with_store _ w).
  split; [| split; [| split; [| split]]].
  - rewrite store_set_library_child. subst w0. cbn [store with_store].
    apply length_insert.
  - exists (set_filtered (filter_filtered (filter_text w) G) G).
    cbn [snd]. rewrite negb_involutive.
    split; [| split; [apply set_filtered_spec | reflexivity]].
    rewrite store_set_library_child. subst w0. cbn [store with_store].
    apply list_lookup_insert_eq. eapply lookup_lt_Some, HG.
  - intros other Hne. rewrite store_set_library_child. subst w0.
    cbn [store with_store]. apply list_lookup_insert_ne. congruence.
  - apply set_library_child_in_sync.
  - rewrite store_set_library_child. unfold set_library_child.
    destruct (set_library_child_loop (store w0)). subst w0. reflexivity.
Qed.

Lemma filter_func_frame_witness :
  let w := with_search_entry_text "xyz" sample_window in
  store w !! 0%nat = Some zelda
  /\ name <$> store (fst (filter_func 0%nat w)) !! 0%nat = Some "Zelda"
  /\ hidden <$> store (fst (filter_func 0%nat w)) !! 0%nat = Some false
  /\ filtered <$> store (fst (filter_func 0%nat w)) !! 0%nat = Some true
  /\ store (fst (filter_func 0%nat w)) !! 1%nat = Some mario
  /\ library_bin_child (fst (filter_func 0%nat w)) = scrolledwindow.
Proof.
  intros w.
  destruct (filter_func_frame 0%nat w zelda eq_refl)
    as (_ & (G' & Hl & Hsame & Hf) & Hother & Hsync & _).
  destruct Hsame as (Hn & _ & _ & _ & Hh & _).
  split; [reflexivity |].
  split; [etrans; [exact (f_equal (fmap name) Hl) | cbn; rewrite Hn; reflexivity] |].
  split; [etrans; [exact (f_equal (fmap hidden) Hl) | cbn; rewrite Hh; reflexivity] |].
  split; [etrans; [exact (f_equal (fmap filtered) Hl) | cbn; rewrite Hf; vm_compute; reflexivity] |].
  split.
  - etrans; [apply Hother; discriminate | reflexivity].
  - etrans; [exact (proj1 Hsync) | vm_compute; reflexivity].
Defined.

(** X3: typing less never hides more. If a game is kept for a query, it is
    kept for every query whose lowercase form is a substring of the
    lowercase form of the first. *)
Theorem filter_func_query_monotone (w w' : CartridgesWindow)
    (child : GameRef) (G : Game) :
  store w !! child = Some G ->
  store w' !! child = Some G ->
  Substring (Py.lower (active_query w')) (Py.lower (active_query w)) ->
  snd (filter_func child w) = true ->
  snd (filter_func child w') = true.
Proof.
  intros HG HG' Hs.
  rewrite (filter_func_result child w G HG), (filter_func_result child w' G HG').
  rewrite !negb_true_iff, !filter_text_query.
  apply filter_filtered_monotone, Hs.
Qed.

Lemma filter_func_query_monotone_witness :
  let w := with_search_entry_text "Zelda C" sample_window in
  let w' := with_search_entry_text "LDA" sample_window in
  snd (filter_func 1%nat w) = true /\ snd (filter_func 1%nat w') = true.
Proof.
  intros w w'.
  assert (Hk : snd (filter_func 1%nat w) = true) by (vm_compute; reflexivity).
  split; [exact Hk |].
  apply (filter_func_query_monotone w w' 1%nat mario eq_refl eq_refl);
    [| exact Hk].
  exists "ze", " c". vm_compute. reflexivity.
Defined.

(** * Further properties of searching *)

Section SearchMore.

Lemma in_sync_filter_func (child : GameRef) (w : CartridgesWindow) :
  placeholders_in_sync w \/ is_Some (store w !! child) ->
  placeholders_in_sync (fst (filter_func child w)).
Proof.
  unfold filter_func. destruct (store w !! child) as [G|].
  - intros _. cbn [fst]. apply set_library_child_in_sync.
  - intros [Hs|[G HG]]; [exact Hs | discriminate].
Qed.

Lemma lookup_filter_func_is_Some (c child : GameRef) (w : CartridgesWindow) :
  is_Some (store (fst (filter_func c w)) !! child) <-> is_Some (store w !! child).
Proof.
  rewrite store_filter_func. destruct (store w !! c); [| reflexivity].
  rewrite !lookup_lt_is_Some, length_insert. reflexivity.
Qed.

Lemma in_sync_invalidate_filter (children : list GameRef) (w : CartridgesWindow) :
  placeholders_in_sync w
  \/ (exists child, In child children /\ is_Some (store w !! child)) ->
  placeholders_in_sync (invalidate_filter children w).
Proof.
  unfold invalidate_filter. revert w.
  induction children as [|c children IH]; intros w Hw; cbn [fold_left].
  - destruct Hw as [Hs|(child & [] & _)]. exact Hs.
  - apply IH. destruct Hw as [Hs|(child & [<-|Hin] & Hc)].
    + left. apply in_sync_filter_func. left. exact Hs.
    + left. apply in_sync_filter_func. right. exact Hc.
    + right. exists child. split; [exact Hin |].
      apply lookup_filter_func_is_Some, Hc.
Qed.

Lemma active_game_filter_func (child : GameRef) (w : CartridgesWindow) :
  active_game (fst (filter_func child w)) = active_game w.
Proof.
  unfold filter_func. destruct (store w !! child); [| reflexivity].
  cbn [fst]. unfold set_library_child.
  destruct (set_library_child_loop _). reflexivity.
Qed.

Lemma active_game_invalidate_filter (children : list GameRef)
    (w : CartridgesWindow) :
  active_game (invalidate_filter children w) = active_game w.
Proof.
  unfold invalidate_filter. revert w.
  induction children as [|c children IH]; intros w; cbn [fold_left];
    [reflexivity | rewrite IH; apply active_game_filter_func].
Qed.

Lemma first_kept_filter_func (text : string) (c : GameRef)
    (children : list GameRef) (w : CartridgesWindow) :
  first_kept text (store (fst (filter_func c w))) children
  = first_kept text (store w) children.
Proof.
  unfold first_kept. induction children as [|x children IH]; cbn [find];
    [reflexivity |].
  rewrite keeps_filter_func, IH. reflexivity.
Qed.

Lemma show_details_view_opens (game : GameRef) (w : CartridgesWindow) :
  active_game (show_details_view game w) = Some game
  /\ stack_visible_child (show_details_view game w) = details_view.
Proof.
  unfold show_details_view. cbn [stack_visible_child with_active_game].
  case_bool_decide as Hv; cbn [negb]; split; try reflexivity.
  exact Hv.
Qed.

(** The loop of [show_details_view_search], from any window. *)
Lemma show_details_view_search_loop_first (children : list GameRef)
    (w : CartridgesWindow) :
  match first_kept (filter_text w) (store w) children with
  | Some child =>
      active_game (show_details_view_search_loop children w) = Some child
      /\ stack_visible_child (show_details_view_search_loop children w)
         = details_view
  | None =>
      show_details_view_search_loop children w = invalidate_filter children w
  end.
Proof.
  revert w. induction children as [|c children IH]; intros w.
  - reflexivity.
  - cbn [show_details_view_search_loop]. unfold first_kept. cbn [find].
    fold (first_kept (filter_text w) (store w) children).
    pose proof (filter_func_keeps c w) as Hk.
    pose proof (filter_text_filter_func c w) as Ht.
    pose proof (first_kept_filter_func (filter_text w) c children w) as Hf.
    destruct (filter_func c w) as [w1 keep] eqn:Hfun. cbn [fst snd] in *.
    rewrite <- Hk. destruct keep.
    + apply show_details_view_opens.
    + specialize (IH w1). rewrite Ht, Hf in IH.
      unfold invalidate_filter. cbn [fold_left]. rewrite Hfun. cbn [fst].
      exact IH.
Qed.

Lemma filter_filtered_empty (G : Game) : filter_filtered "" G = false.
Proof. reflexivity. Qed.

End SearchMore.

(** X4: a change of the search text runs the filter on the flow box of
    that entry: every game in the box ends with its [filtered] field
    holding the verdict for the query of the visible page and with its
    other fields as they were, every game outside the box is as it was, an
    empty query leaves [filtered] false on the whole box, and (when the box
    holds a game) the bins are left showing the selection for the new
    flags. *)
Theorem search_changed_marks (hidden : bool) (w : CartridgesWindow) :
  let box := if hidden then hidden_library_children w else library_children w in
  let w' := search_changed hidden w in
  (forall child G,
      In child box -> store w !! child = Some G ->
      exists G', store w' !! child = Some G'
                 /\ filtered G'
                    = filter_filtered (Py.lower (active_query w)) G
                 /\ same_game_but_filtered G G')
  /\ (forall child, ~ In child box -> store w' !! child = store w !! child)
  /\ (active_query w = "" ->
      forall child G,
        In child box -> store w !! child = Some G ->
        exists G', store w' !! child = Some G'
                   /\ filtered G' = false
                   /\ same_game_but_filtered G G')
  /\ ((exists child, In child box /\ is_Some (store w !! child)) ->
      placeholders_in_sync w').
Proof.
  intros box w'. subst w'. unfold search_changed. fold box.
  split; [| split; [| split]].
  - intros child G Hin HG. apply lookup_set_filtered.
    rewrite (store_invalidate_filter box w child G Hin HG), filter_text_query.
    reflexivity.
  - intros child Hn. apply store_invalidate_filter_other, Hn.
  - intros Hq child G Hin HG. apply lookup_set_filtered.
    rewrite (store_invalidate_filter box w child G Hin HG), filter_text_query, Hq.
    reflexivity.
  - intros Hex. apply in_sync_invalidate_filter. right. exact Hex.
Qed.

Lemma search_changed_marks_witness :
  let w := with_search_entry_text "mar" sample_window in
  let shown := set_library_child
                 (with_store [set_filtered true zelda; mario] sample_window) in
  filtered <$> store (search_changed false w) !! 0%nat = Some true
  /\ name <$> store (search_changed false w) !! 0%nat = Some "Zelda"
  /\ filtered <$> store (search_changed false w) !! 1%nat = Some false
  /\ store (search_changed true w) !! 0%nat = Some zelda
  /\ filtered <$> store shown !! 0%nat = Some true
  /\ filtered <$> store (search_changed false shown) !! 0%nat = Some false
  /\ library_bin_child (search_changed false w) = scrolledwindow.
Proof.
  intros w shown.
  destruct (search_changed_marks false w) as (Hin & _ & _ & Hsync).
  destruct (search_changed_marks true w) as (_ & Hout & _ & _).
  destruct (search_changed_marks false shown) as (_ & _ & Hempty & _).
  destruct (Hin 0%nat zelda) as (G0 & Hl0 & Hf0 & Hn0 & _);
    [left; reflexivity | reflexivity |].
  destruct (Hin 1%nat mario) as (G1 & Hl1 & Hf1 & _);
    [right; left; reflexivity | reflexivity |].
  destruct (Hempty eq_refl 0%nat (set_filtered true zelda))
    as (G2 & Hl2 & Hf2 & _); [left; reflexivity | reflexivity |].
  split; [etrans; [exact (f_equal (fmap filtered) Hl0) |];
          cbn; rewrite Hf0; vm_compute; reflexivity |].
  split; [etrans; [exact (f_equal (fmap name) Hl0) |];
          cbn; rewrite Hn0; reflexivity |].
  split; [etrans; [exact (f_equal (fmap filtered) Hl1) |];
          cbn; rewrite Hf1; vm_compute; reflexivity |].
  split; [etrans; [apply (Hout 0%nat); intros [] | reflexivity] |].
  split; [reflexivity |].
  split; [etrans; [exact (f_equal (fmap filtered) Hl2) |];
          cbn; rewrite Hf2; reflexivity |].
  assert (Hex : exists child, In child (library_children w)
                              /\ is_Some (store w !! child)).
  { exists 0%nat. split; [left; reflexivity | exists zelda; reflexivity]. }
  etrans; [exact (proj1 (Hsync Hex)) | vm_compute; reflexivity].
Defined.

(** X5: activating a search entry opens the details of the first item of
    its flow box, in display order, that the filter keeps for the query of
    the visible page; when the filter keeps none, it only re-runs the filter
    on the box and neither the page nor the active game changes. *)
Theorem show_details_view_search_first (widget : Widget) (w : CartridgesWindow) :
  let box :=
    if bool_decide (widget = hidden_search_entry)
    then hidden_library_children w else library_children w in
  let w' := show_details_view_search widget w in
  match first_kept (Py.lower (active_query w)) (store w) box with
  | Some child =>
      active_game w' = Some child /\ stack_visible_child w' = details_view
  | None =>
      w' = invalidate_filter box w
      /\ nav w' = nav w
      /\ active_game w' = active_game w
  end.
Proof.
  intros box w'. subst w'. unfold show_details_view_search. fold box.
  pose proof (show_details_view_search_loop_first box w) as H.
  rewrite filter_text_query in H.
  destruct (first_kept _ _ box); [exact H |].
  rewrite H. split; [reflexivity |]. split.
  - apply nav_invalidate_filter.
  - apply active_game_invalidate_filter.
Qed.

(** * Further properties of navigation *)

Section NavigationMore.

Context `{Collaborators}.

Lemma navq_set_library_child (w : CartridgesWindow) :
  navq (set_library_child w) = navq w.
Proof.
  unfold set_library_child. destruct (set_library_child_loop (store w)).
  reflexivity.
Qed.

Lemma navq_filter_func (child : GameRef) (w : CartridgesWindow) :
  navq (fst (filter_func child w)) = navq w.
Proof.
  unfold filter_func. destruct (store w !! child); [| reflexivity].
  cbn [fst]. rewrite navq_set_library_child. reflexivity.
Qed.

Lemma navq_invalidate_filter (children : list GameRef) (w : CartridgesWindow) :
  navq (invalidate_filter children w) = navq w.
Proof.
  unfold invalidate_filter. revert w.
  induction children as [|child children IH]; intros w; cbn [fold_left];
    [reflexivity | rewrite IH; apply navq_filter_func].
Qed.

Lemma navq_search_entry_set_text_empty (hidden : bool) (w : CartridgesWindow) :
  navq (search_entry_set_text_empty hidden w) = navq w.
Proof.
  unfold search_entry_set_text_empty, search_changed.
  destruct hidden;
    [destruct (String.eqb (hidden_search_entry_text w) "")
    | destruct (String.eqb (search_entry_text w) "")];
    try reflexivity; rewrite navq_invalidate_filter; reflexivity.
Qed.

Lemma navq_on_toggle_search_action (w : CartridgesWindow) :
  navq (on_toggle_search_action w) = navq w.
Proof.
  unfold on_toggle_search_action.
  repeat case_bool_decide; try reflexivity;
    cbv zeta; rewrite navq_search_entry_set_text_empty;
    [destruct (search_bar_search_mode w)
    | destruct (hidden_search_bar_search_mode w)]; reflexivity.
Qed.

Section InvariantQ.

Variable Q : CartridgesWindow -> Prop.
Hypothesis Q_navq : forall w w', navq w = navq w' -> Q w -> Q w'.
Hypothesis Q_navigate : forall page w, Q w -> Q (navigate page w).
Hypothesis Q_collaborators : collaborators_preserve Q.

Lemma Q_on_go_to_parent_action w : Q w -> Q (on_go_to_parent_action w).
Proof.
  intros Hw. unfold on_go_to_parent_action.
  case_bool_decide; [apply Q_navigate |]; exact Hw.
Qed.

Lemma Q_on_go_back_action w : Q w -> Q (on_go_back_action w).
Proof.
  intros Hw. unfold on_go_back_action.
  repeat case_bool_decide;
    [apply Q_navigate | apply Q_on_go_to_parent_action |]; exact Hw.
Qed.

Lemma Q_show_details_view game w : Q w -> Q (show_details_view game w).
Proof.
  intros Hw. unfold show_details_view.
  assert (Ha : Q (with_active_game (Some game) w))
    by (apply (Q_navq w); [reflexivity | exact Hw]).
  destruct (negb _); [| exact Ha].
  apply (Q_navq (navigate details_view (with_active_game (Some game) w)));
    [reflexivity | apply Q_navigate, Ha].
Qed.

Lemma Q_show_details_view_search_loop children w :
  Q w -> Q (show_details_view_search_loop children w).
Proof.
  revert w. induction children as [|child children IH]; intros w Hw;
    cbn [show_details_view_search_loop]; [exact Hw |].
  pose proof (navq_filter_func child w) as Hn.
  destruct (filter_func child w) as [w1 keep]. cbn [fst] in Hn.
  assert (H1 : Q w1) by (apply (Q_navq w); [symmetry; exact Hn | exact Hw]).
  destruct keep; [apply Q_show_details_view | apply IH]; exact H1.
Qed.

Lemma Q_on_undo_action game undo w :
  Q w -> Q (fst (on_undo_action game undo w)).
Proof.
  intros Hw. destruct Q_collaborators as (Ht & Hs & Hu & Hi).
  assert (Hg : forall g u, Q (fst (undo_game g u w))).
  { intros g u. unfold undo_game. cbv zeta.
    set (w1 := undo_reversal g u w).
    assert (H1 : Q w1).
    { subst w1. unfold undo_reversal. repeat case_bool_decide.
      - apply Ht, Hw.
      - apply Hu, Hs. apply (Q_navq w); [reflexivity | exact Hw].
      - exact Hw. }
    destruct (dict_get (g, u) (toasts w1)); cbn [fst]; [| exact H1].
    apply (Q_navq w1); [reflexivity | exact H1]. }
  unfold on_undo_action. destruct game as [g|]; [apply Hg |].
  destruct (importer_pending w); [apply Hi, Hw |].
  destruct (dict_last_key (toasts w)) as [[g u]|]; [apply Hg | exact Hw].
Qed.

Lemma Q_step w a : Q w -> Q (step w a).
Proof.
  intros Hw. destruct a; cbn [step].
  - apply (Q_navq w); [symmetry; apply navq_set_library_child | exact Hw].
  - apply (Q_navq w); [symmetry; apply navq_invalidate_filter | exact Hw].
  - apply (Q_navq w); [symmetry; apply navq_filter_func | exact Hw].
  - apply (Q_navq w); [reflexivity | exact Hw].
  - apply Q_show_details_view, Hw.
  - apply Q_show_details_view_search_loop, Hw.
  - apply Q_on_go_back_action, Hw.
  - apply Q_on_go_to_parent_action, Hw.
  - apply Q_navigate, Hw.
  - apply Q_navigate, Hw.
  - apply (Q_navq w); [reflexivity | exact Hw].
  - apply (Q_navq w); [symmetry; apply navq_on_toggle_search_action | exact Hw].
  - unfold on_escape_action. destruct (escape_condition w).
    + apply (Q_navq w); [symmetry; apply navq_on_toggle_search_action | exact Hw].
    + apply Q_on_go_back_action, Hw.
  - apply Q_on_undo_action, Hw.
  - apply (Q_navq w); [reflexivity | exact Hw].
Qed.

Lemma Q_run actions w : Q w -> Q (run actions w).
Proof.
  unfold run. revert w.
  induction actions as [|a actions IH]; intros w Hw; cbn [fold_left];
    [exact Hw | apply IH, Q_step, Hw].
Qed.

End InvariantQ.

Lemma show_hidden_tracks_navq (w w' : CartridgesWindow) :
  navq w = navq w' -> show_hidden_tracks w -> show_hidden_tracks w'.
Proof.
  unfold show_hidden_tracks. intros Hn. injection Hn as _ <- <-. tauto.
Qed.

Lemma show_hidden_tracks_navigate (page : Page) (w : CartridgesWindow) :
  show_hidden_tracks w -> show_hidden_tracks (navigate page w).
Proof. unfold show_hidden_tracks. destruct page; intros Hw; [reflexivity .. | exact Hw]. Qed.

Lemma library_page_remembered_nav : navigation_only library_page_remembered.
Proof.
  intros w w' Hn. unfold library_page_remembered.
  injection Hn as <- <-. tauto.
Qed.

Lemma library_page_remembered_navigate (page : Page) (w : CartridgesWindow) :
  library_page_remembered w -> library_page_remembered (navigate page w).
Proof.
  unfold library_page_remembered.
  destruct page; intros Hw Hv; try reflexivity. contradiction.
Qed.

Lemma library_page_remembered_init (template : CartridgesWindow) :
  stack_visible_child template <> hidden_library_view ->
  library_page_remembered (init template).
Proof.
  intros Ht.
  apply (library_page_remembered_nav
           (with_previous_page library_view
              (with_sort_state "a-z" (with_toasts [] template)))).
  - symmetry. apply nav_set_library_child.
  - unfold library_page_remembered.
    cbn [stack_visible_child previous_page with_previous_page with_sort_state
           with_toasts].
    destruct (stack_visible_child template); congruence.
Qed.

End NavigationMore.

(** X6: going back is bounded. From any page two back actions end on the
    library, and with the library shown the back action changes nothing;
    when the walk started away from the library it also leaves the library as
    the remembered page, with the [show_hidden] action enabled. *)
Theorem on_go_back_action_twice (w : CartridgesWindow) :
  stack_visible_child (on_go_back_action (on_go_back_action w)) = library_view
  /\ (stack_visible_child w = library_view -> on_go_back_action w = w)
  /\ (stack_visible_child w <> library_view ->
      previous_page (on_go_back_action (on_go_back_action w)) = library_view
      /\ show_hidden_enabled (on_go_back_action (on_go_back_action w)) = true).
Proof.
  destruct w as [st lc hc visible tt prev sh lb hb t1 t2 m1 m2 fw ss sa sm to di im ag].
  destruct visible, prev; vm_compute;
    (split; [reflexivity |]); split; intros Hv;
    try reflexivity; try discriminate; try contradiction;
    try (split; reflexivity).
Qed.

Lemma on_go_back_action_twice_witness :
  let d := @run idle [ShowHidden; ShowDetailsView 0%nat] sample_window in
  stack_visible_child d = details_view
  /\ stack_visible_child (on_go_back_action d) = hidden_library_view
  /\ previous_page (on_go_back_action (on_go_back_action d)) = library_view
  /\ on_go_back_action sample_window = sample_window.
Proof.
  intros d.
  destruct (on_go_back_action_twice d) as (_ & _ & Haway).
  destruct (on_go_back_action_twice sample_window) as (_ & Hhome & _).
  split; [reflexivity |]. split; [reflexivity |]. split.
  - apply Haway. discriminate.
  - apply Hhome. reflexivity.
Defined.

(** X7: the direction of the transition. Leaving towards the library side
    (back from the hidden library or the details, home from anywhere else)
    slides under to the right; opening the details, and navigating to the
    page already shown, slides over to the left; showing the hidden library
    slides under to the right only when it comes from the details. *)
Theorem transition_directions (w : CartridgesWindow) (game : GameRef) :
  (stack_visible_child w <> library_view ->
   stack_transition_type (on_go_back_action w) = UNDER_RIGHT
   /\ stack_transition_type (on_go_home_action w) = UNDER_RIGHT)
  /\ (stack_visible_child w = library_view ->
      stack_transition_type (on_go_home_action w) = OVER_LEFT)
  /\ (stack_visible_child w <> details_view ->
      stack_transition_type (show_details_view game w) = OVER_LEFT)
  /\ (stack_transition_type (on_show_hidden_action w) = UNDER_RIGHT
      <-> stack_visible_child w = details_view).
Proof.
  destruct w as [st lc hc visible tt prev sh lb hb t1 t2 m1 m2 fw ss sa sm to di im ag].
  destruct visible, prev; vm_compute;
    repeat split; intros; try reflexivity; try discriminate; try contradiction.
Qed.

Lemma transition_directions_witness :
  let h := on_show_hidden_action sample_window in
  stack_transition_type h = OVER_LEFT
  /\ stack_transition_type (show_details_view 0%nat h) = OVER_LEFT
  /\ stack_transition_type (on_go_back_action (show_details_view 0%nat h))
     = UNDER_RIGHT
  /\ stack_transition_type (on_go_home_action sample_window) = OVER_LEFT.
Proof.
  intros h.
  destruct (transition_directions h 0%nat) as (_ & _ & Hopen & _).
  destruct (transition_directions (show_details_view 0%nat h) 0%nat)
    as (Hback & _).
  destruct (transition_directions sample_window 0%nat) as (_ & Hhome & _).
  split; [reflexivity |]. split; [apply Hopen; discriminate |]. split.
  - apply Hback. discriminate.
  - apply Hhome. reflexivity.
Defined.

(** X8: once the window has navigated to a library page, the [show_hidden]
    action is enabled exactly when the remembered library page is the
    library, after any further run of the handlers. The collaborators are
    assumed to keep that relation. *)
Theorem show_hidden_enabled_tracks `{Collaborators} (w : CartridgesWindow)
    (page : Page) (actions : list Action) :
  collaborators_preserve show_hidden_tracks ->
  page <> details_view ->
  let w' := run actions (navigate page w) in
  show_hidden_enabled w' = bool_decide (previous_page w' = library_view).
Proof.
  intros Hc Hp w'. subst w'.
  apply (Q_run show_hidden_tracks);
    [ exact show_hidden_tracks_navq
    | exact show_hidden_tracks_navigate
    | exact Hc |].
  unfold show_hidden_tracks. destruct page; [reflexivity .. | contradiction].
Qed.

Lemma show_hidden_enabled_tracks_witness :
  show_hidden_enabled
    (@run idle [ShowDetailsView 1%nat; Escape; GoBack; ShowHidden; ToggleSearch]
       (navigate library_view sample_window)) = false.
Proof.
  assert (Hc : @collaborators_preserve idle show_hidden_tracks).
  { unfold collaborators_preserve. simpl. tauto. }
  assert (Hp : library_view <> details_view) by discriminate.
  etrans.
  - exact (@show_hidden_enabled_tracks idle sample_window library_view
             [ShowDetailsView 1%nat; Escape; GoBack; ShowHidden; ToggleSearch]
             Hc Hp).
  - vm_compute. reflexivity.
Defined.

(** X9: opening the details from a library page and leaving them again is a
    round trip. In every run of the window, from either library page, the
    back action, the parent action and Escape (the focus being on the play
    button that [show_details_view] focuses) all return to the page the
    details were opened from and leave it the remembered page. The stack is
    taken to start on a page other than the hidden library. *)
Theorem details_round_trip `{Collaborators} (template : CartridgesWindow)
    (actions : list Action) (game : GameRef) :
  collaborators_preserve library_page_remembered ->
  stack_visible_child template <> hidden_library_view ->
  let w := run actions (init template) in
  stack_visible_child w <> details_view ->
  let d := show_details_view game w in
  nav (on_go_back_action d) = nav w
  /\ nav (on_go_to_parent_action d) = nav w
  /\ nav (on_escape_action d) = nav w.
Proof.
  intros Hc Ht w Hv d.
  assert (Hp : library_page_remembered w).
  { apply P_run;
      [ exact library_page_remembered_nav
      | exact library_page_remembered_navigate
      | exact Hc
      | apply library_page_remembered_init, Ht ]. }
  specialize (Hp Hv). clearbody w. subst d.
  destruct w as [st lc hc visible tt prev sh lb hb t1 t2 m1 m2 fw ss sa sm to di im ag].
  cbn [stack_visible_child previous_page] in *. subst prev.
  destruct visible; [| | contradiction]; vm_compute; repeat split.
Qed.

Lemma details_round_trip_witness :
  let w := @run idle [ShowHidden] (init sample_template) in
  nav w = (hidden_library_view, hidden_library_view)
  /\ nav (on_escape_action (show_details_view 1%nat w))
     = (hidden_library_view, hidden_library_view)
  /\ nav (on_go_back_action (show_details_view 0%nat (init sample_template)))
     = (library_view, library_view).
Proof.
  intros w.
  assert (Hc : @collaborators_preserve idle library_page_remembered).
  { unfold collaborators_preserve. simpl. tauto. }
  assert (Ht : stack_visible_child sample_template <> hidden_library_view)
    by discriminate.
  assert (Hv : stack_visible_child w <> details_view) by discriminate.
  assert (Hv0 : stack_visible_child (@run idle [] (init sample_template))
                <> details_view) by discriminate.
  destruct (@details_round_trip idle sample_template [ShowHidden] 1%nat Hc Ht Hv)
    as (_ & _ & Hesc).
  destruct (@details_round_trip idle sample_template [] 0%nat Hc Ht Hv0)
    as (Hback & _).
  split; [reflexivity |]. split.
  - etrans; [exact Hesc | reflexivity].
  - etrans; [exact Hback | reflexivity].
Defined.

(** * Further properties of undo *)

Section UndoMore.

Context `{Collaborators}.

Lemma dict_pop_cons (key k : ToastKey) (v : Toast) (d : list (ToastKey * Toast)) :
  dict_pop key ((k, v) :: d)
  = if bool_decide (k = key) then dict_pop key d else (k, v) :: dict_pop key d.
Proof.
  unfold dict_pop. rewrite filter_cons. cbn [fst].
  destruct (decide (k <> key)) as [Hne|He]; case_bool_decide; try reflexivity;
    [contradiction | exfalso; apply He; assumption].
Qed.

Lemma dict_get_pop (key : ToastKey) (d : list (ToastKey * Toast)) :
  dict_get key (dict_pop key d) = None.
Proof.
  induction d as [|[k v] d IH]; [reflexivity |].
  rewrite dict_pop_cons. case_bool_decide as Hk; [exact IH |].
  cbn [dict_get]. rewrite bool_decide_eq_false_2 by exact Hk. exact IH.
Qed.

Lemma dict_get_pop_other (key key' : ToastKey) (d : list (ToastKey * Toast)) :
  key' <> key -> dict_get key' (dict_pop key d) = dict_get key' d.
Proof.
  intros Hne. induction d as [|[k v] d IH]; [reflexivity |].
  rewrite dict_pop_cons. cbn [dict_get]. case_bool_decide as Hk.
  - subst k. rewrite bool_decide_eq_false_2 by congruence. exact IH.
  - cbn [dict_get]. rewrite IH. reflexivity.
Qed.

(** The newest entry of a registry with distinct keys. *)
Lemma dict_newest (key : ToastKey) (toast : Toast) (d : list (ToastKey * Toast)) :
  ~ In key (map fst d) ->
  dict_last_key (d ++ [(key, toast)]) = Some key
  /\ dict_get key (d ++ [(key, toast)]) = Some toast
  /\ dict_pop key (d ++ [(key, toast)]) = d.
Proof.
  intros Hn. split; [| split].
  - unfold dict_last_key. rewrite last_snoc. reflexivity.
  - induction d as [|[k v] d IH]; cbn [app dict_get].
    + rewrite bool_decide_eq_true_2 by reflexivity. reflexivity.
    + cbn [map fst In] in Hn. rewrite bool_decide_eq_false_2 by tauto.
      apply IH. tauto.
  - induction d as [|[k v] d IH]; cbn [app].
    + rewrite dict_pop_cons, bool_decide_eq_true_2 by reflexivity. reflexivity.
    + cbn [map fst In] in Hn. rewrite dict_pop_cons.
      rewrite bool_decide_eq_false_2 by tauto. rewrite IH by tauto.
      reflexivity.
Qed.

Lemma undo_game_present (game : GameRef) (undo : option string)
    (w : CartridgesWindow) (toast : Toast) :
  collaborators_keep_toasts ->
  dict_get (game, undo) (toasts w) = Some toast ->
  undo_game game undo w
  = (with_toasts (dict_pop (game, undo) (toasts w))
       (with_dismissed (toast :: dismissed (undo_reversal game undo w))
          (undo_reversal game undo w)),
     Py.Returned).
Proof.
  intros Hc Hk. unfold undo_game. cbv zeta.
  rewrite (toasts_undo_reversal game undo w Hc), Hk. reflexivity.
Qed.

End UndoMore.

(** X13: an undo for a key that is in the registry returns normally,
    dismisses the toast of that key, removes that entry and no other, and
    uses the entry up: the same undo once more stops with [KeyError]. The
    [Game] methods are assumed not to touch the registry. *)
Theorem on_undo_action_removes_entry `{Collaborators} (w : CartridgesWindow)
    (game : GameRef) (undo : option string) (toast : Toast) :
  collaborators_keep_toasts ->
  dict_get (game, undo) (toasts w) = Some toast ->
  let w' := fst (on_undo_action (Some game) undo w) in
  snd (on_undo_action (Some game) undo w) = Py.Returned
  /\ dict_get (game, undo) (toasts w') = None
  /\ (forall key, key <> (game, undo) ->
        dict_get key (toasts w') = dict_get key (toasts w))
  /\ dismissed w' = toast :: dismissed (undo_reversal game undo w)
  /\ snd (on_undo_action (Some game) undo w') = Py.Raised Py.KeyError.
Proof.
  intros Hc Hk w'. subst w'. cbn [on_undo_action].
  rewrite (undo_game_present game undo w toast Hc Hk). cbn [fst snd].
  cbn [toasts with_toasts dismissed with_dismissed].
  split; [reflexivity |]. split; [apply dict_get_pop |].
  split; [intros key Hne; apply dict_get_pop_other, Hne |].
  split; [reflexivity |].
  rewrite undo_game_missing; [reflexivity |].
  rewrite (toasts_undo_reversal game undo _ Hc).
  cbn [toasts with_toasts]. apply dict_get_pop.
Qed.

Lemma on_undo_action_removes_entry_witness :
  let w :=
    with_toasts [((0%nat, Some "hide"), 4%nat); ((1%nat, Some "remove"), 5%nat)]
      sample_window in
  let w' := fst (@on_undo_action idle (Some 0%nat) (Some "hide") w) in
  toasts w' = [((1%nat, Some "remove"), 5%nat)]
  /\ dismissed w' = [4%nat]
  /\ snd (@on_undo_action idle (Some 0%nat) (Some "hide") w')
     = Py.Raised Py.KeyError.
Proof.
  intros w w'.
  assert (Hc : @collaborators_keep_toasts idle).
  { unfold collaborators_keep_toasts. simpl. tauto. }
  destruct (@on_undo_action_removes_entry idle w 0%nat (Some "hide") 4%nat
              Hc eq_refl) as (_ & _ & _ & Hd & Hagain).
  split; [reflexivity |]. split; [exact Hd | exact Hagain].
Defined.

(** X14: the global undo (no game given). A pending importer batch takes
    priority: only the importer's undo runs. Otherwise, with a registry of
    distinct keys that is not empty, it undoes the entry added last: it
    applies the reversal of that entry, dismisses its toast, and leaves the
    earlier entries, in their order. The [undo] argument is ignored. *)
Theorem on_undo_action_global `{Collaborators} (w : CartridgesWindow)
    (undo : option string) :
  (importer_pending w = true ->
   on_undo_action None undo w = (undo_import w, Py.Returned))
  /\ (collaborators_keep_toasts ->
      importer_pending w = false ->
      forall (earlier : list (ToastKey * Toast)) (game : GameRef)
             (action : option string) (toast : Toast),
        toasts w = (earlier ++ [((game, action), toast)])%list ->
        ~ In (game, action) (map fst earlier) ->
        on_undo_action None undo w
        = (with_toasts earlier
             (with_dismissed (toast :: dismissed (undo_reversal game action w))
                (undo_reversal game action w)),
           Py.Returned)).
Proof.
  split.
  - intros Hp. unfold on_undo_action. rewrite Hp. reflexivity.
  - intros Hc Hp earlier game action toast Ht Hn.
    destruct (dict_newest (game, action) toast earlier Hn) as (Hlast & Hget & Hpop).
    assert (Hg : dict_get (game, action) (toasts w) = Some toast)
      by (rewrite Ht; exact Hget).
    assert (Hl : dict_last_key (toasts w) = Some (game, action))
      by (rewrite Ht; exact Hlast).
    assert (Hq : dict_pop (game, action) (toasts w) = earlier)
      by (rewrite Ht; exact Hpop).
    unfold on_undo_action. rewrite Hp, Hl.
    rewrite (undo_game_present game action w toast Hc Hg), Hq. reflexivity.
Qed.

Lemma on_undo_action_global_witness :
  let w :=
    with_toasts [((0%nat, Some "hide"), 4%nat); ((1%nat, Some "remove"), 5%nat)]
      (with_store [zelda; set_removed true mario] sample_window) in
  let busy := with_importer (Some (mkImporter ["steam_1"] [])) w in
  @on_undo_action idle None None busy = (busy, Py.Returned)
  /\ toasts (fst (@on_undo_action idle None None w))
     = [((0%nat, Some "hide"), 4%nat)]
  /\ store (fst (@on_undo_action idle None None w)) = [zelda; mario].
Proof.
  intros w busy.
  destruct (@on_undo_action_global idle busy None) as (Hbusy & _).
  destruct (@on_undo_action_global idle w None) as (_ & Hlast).
  assert (Hc : @collaborators_keep_toasts idle).
  { unfold collaborators_keep_toasts. simpl. tauto. }
  assert (Hn : ~ In (1%nat, Some "remove")
                 (map fst [((0%nat, Some "hide"), 4%nat)])).
  { intros [Hx|[]]. discriminate. }
  split; [apply Hbusy; reflexivity |].
  rewrite (Hlast Hc eq_refl [((0%nat, Some "hide"), 4%nat)] 1%nat
             (Some "remove") 5%nat eq_refl Hn).
  split; vm_compute; reflexivity.
Defined.

(** * Further properties of the comparator *)

Section SortMore.

Lemma sort_state_with_sort_state (state : string) (w : CartridgesWindow) :
  sort_state (with_sort_state state w) = state.
Proof. reflexivity. Qed.

Lemma added_text_inj (a b : Game) :
  get_value attr_added a = get_value attr_added b -> added a = added b.
Proof.
  unfold get_value. rewrite !lower_str_int. apply str_int_inj.
Qed.

Lemma sort_key_other (state : string) :
  ~ In state ["newest"; "oldest"; "last_played"; "a-z"] ->
  sort_key state = (attr_name, true).
Proof.
  intros Hn. unfold sort_key. cbn [In] in Hn.
  destruct (String.eqb_spec state "newest"); [exfalso; apply Hn; auto |].
  destruct (String.eqb_spec state "oldest"); [exfalso; apply Hn; auto |].
  destruct (String.eqb_spec state "last_played"); [exfalso; apply Hn; auto |].
  destruct (String.eqb_spec state "a-z"); [exfalso; apply Hn; auto 6 |].
  reflexivity.
Qed.

(** The comparator in a mode that sorts by name. *)
Lemma sort_func_by_name (w : CartridgesWindow) (order : bool) (a b : Game) :
  sort_key (sort_state w) = (attr_name, order) ->
  sort_func w a b
  = if xorb (Py.gt (get_value attr_name a) (get_value attr_name b)) order
    then 1 else -1.
Proof.
  intros Hk. rewrite sort_func_unfold, Hk. cbv zeta. cbn [fst snd].
  rewrite bool_decide_eq_true_2 by reflexivity. reflexivity.
Qed.

(** The comparator in a mode that sorts by the time of addition. *)
Lemma sort_func_by_added (w : CartridgesWindow) (order : bool) (a b : Game) :
  sort_key (sort_state w) = (attr_added, order) ->
  sort_func w a b
  = if String.eqb (get_value attr_added a) (get_value attr_added b)
    then (if Py.gt (get_value attr_name a) (get_value attr_name b)
          then -1 else 1)
    else (if xorb (Py.gt (get_value attr_added a) (get_value attr_added b)) order
          then 1 else -1).
Proof.
  intros Hk. rewrite sort_func_unfold, Hk. cbv zeta. cbn [fst snd].
  rewrite bool_decide_eq_false_2 by discriminate. reflexivity.
Qed.

End SortMore.

(** X15: how the modes relate. The order [a-z] is the exact reverse of
    [z-a] on every pair of games. [oldest] is the reverse of [newest] on
    games added at different times, while games added at the same time are
    listed the same way in both, as [z-a] lists them. A sort state that is
    none of the known names sorts as [z-a]. *)
Theorem sort_func_mode_relations (w : CartridgesWindow) (a b : Game) :
  sort_func (with_sort_state "a-z" w) a b
  = - sort_func (with_sort_state "z-a" w) a b
  /\ (added a <> added b ->
      sort_func (with_sort_state "oldest" w) a b
      = - sort_func (with_sort_state "newest" w) a b)
  /\ (added a = added b ->
      sort_func (with_sort_state "oldest" w) a b
      = sort_func (with_sort_state "z-a" w) a b
      /\ sort_func (with_sort_state "newest" w) a b
         = sort_func (with_sort_state "z-a" w) a b)
  /\ (forall state,
        ~ In state ["newest"; "oldest"; "last_played"; "a-z"] ->
        sort_func (with_sort_state state w) a b
        = sort_func (with_sort_state "z-a" w) a b).
Proof.
  pose proof (sort_func_by_name (with_sort_state "a-z" w) false a b eq_refl) as Haz.
  pose proof (sort_func_by_name (with_sort_state "z-a" w) true a b eq_refl) as Hza.
  pose proof (sort_func_by_added (with_sort_state "oldest" w) false a b eq_refl) as Hold.
  pose proof (sort_func_by_added (with_sort_state "newest" w) true a b eq_refl) as Hnew.
  split; [| split; [| split]].
  - rewrite Haz, Hza.
    destruct (Py.gt (get_value attr_name a) (get_value attr_name b)); reflexivity.
  - intros Hne. rewrite Hold, Hnew.
    destruct (String.eqb_spec (get_value attr_added a) (get_value attr_added b))
      as [He|_].
    + apply added_text_inj in He. contradiction.
    + destruct (Py.gt (get_value attr_added a) (get_value attr_added b));
        reflexivity.
  - intros He. rewrite Hold, Hnew, Hza.
    assert (Ht : get_value attr_added a = get_value attr_added b)
      by (unfold get_value; rewrite He; reflexivity).
    rewrite Ht, String.eqb_refl.
    destruct (Py.gt (get_value attr_name a) (get_value attr_name b));
      split; reflexivity.
  - intros state Hn. rewrite Hza.
    apply sort_func_by_name. rewrite sort_state_with_sort_state.
    apply sort_key_other, Hn.
Qed.

Lemma sort_func_mode_relations_witness :
  sort_func (with_sort_state "oldest" sample_window) zelda mario = -1
  /\ sort_func (with_sort_state "newest" sample_window) zelda mario = 1
  /\ sort_func (with_sort_state "oldest" sample_window)
       (played "Zelda" 1) (played "Zelda II" 2)
     = sort_func (with_sort_state "z-a" sample_window)
         (played "Zelda" 1) (played "Zelda II" 2)
  /\ sort_func (with_sort_state "recent" sample_window) zelda mario = -1.
Proof.
  destruct (sort_func_mode_relations sample_window zelda mario)
    as (_ & Hrev & _ & Hother).
  destruct (sort_func_mode_relations sample_window
              (played "Zelda" 1) (played "Zelda II" 2))
    as (_ & _ & Hsame & _).
  assert (Hnew : sort_func (with_sort_state "newest" sample_window) zelda mario = 1)
    by (vm_compute; reflexivity).
  split; [rewrite Hrev by discriminate; rewrite Hnew; reflexivity |].
  split; [exact Hnew |]. split.
  - exact (proj1 (Hsame eq_refl)).
  - rewrite (Hother "recent"); [vm_compute; reflexivity |].
    cbn [In]. intros [Hx|[Hx|[Hx|[Hx|[]]]]]; discriminate.
Defined.

(** * The text of a time and its number *)

Section DecimalOrder.

Lemma decimal_value_acc (d : Decimal.uint) (acc : positive) :
  Npos (Pos.of_uint_acc d acc) = decimal_value (Npos acc) d.
Proof.
  revert acc. induction d; intros acc; cbn [Pos.of_uint_acc decimal_value];
    [reflexivity | rewrite IHd; f_equal; lia ..].
Qed.

Lemma decimal_value_of_uint (d : Decimal.uint) :
  N.of_uint d = decimal_value 0 d.
Proof.
  unfold N.of_uint.
  induction d; cbn [Pos.of_uint decimal_value];
    [reflexivity | exact IHd | apply decimal_value_acc ..].
Qed.

Lemma decimal_value_mono (d d' : Decimal.uint) (x y : N) :
  String.length (NilEmpty.string_of_uint d)
  = String.length (NilEmpty.string_of_uint d') ->
  (x < y)%N -> (decimal_value x d < decimal_value y d')%N.
Proof.
  revert d' x y. induction d; intros d' x y Hl Hxy; destruct d';
    cbn [NilEmpty.string_of_uint String.length] in Hl; try discriminate;
    cbn [decimal_value]; try exact Hxy;
    (apply IHd; [congruence | lia]).
Qed.

(** On digit strings of the same length the order of the strings is the
    order of the numbers. *)
Lemma compare_decimal (d d' : Decimal.uint) (acc : N) :
  String.length (NilEmpty.string_of_uint d)
  = String.length (NilEmpty.string_of_uint d') ->
  String.compare (NilEmpty.string_of_uint d) (NilEmpty.string_of_uint d')
  = N.compare (decimal_value acc d) (decimal_value acc d').
Proof.
  revert d' acc. induction d; intros d' acc Hl; destruct d';
    cbn [NilEmpty.string_of_uint String.length] in Hl; try discriminate;
    cbn [NilEmpty.string_of_uint decimal_value String.compare];
    try (symmetry; apply N.compare_refl);
    match goal with
    | |- context [Ascii.compare ?a ?b] =>
        let r := eval vm_compute in (Ascii.compare a b) in
        replace (Ascii.compare a b) with r by reflexivity
    end; cbv iota;
    first [ apply IHd; congruence
          | symmetry; apply N.compare_lt_iff, decimal_value_mono;
            [congruence | lia]
          | symmetry; apply N.compare_gt_iff, decimal_value_mono;
            [congruence | lia] ].
Qed.

Lemma str_int_nonneg (n : Z) :
  0 <= n ->
  Py.str_int n = NilEmpty.string_of_uint (N.to_uint (Z.to_N n))
  /\ decimal_value 0 (N.to_uint (Z.to_N n)) = Z.to_N n.
Proof.
  intros Hn. split.
  - unfold Py.str_int. destruct n as [|p|p]; [reflexivity | | lia].
    cbn [Z.to_int Z.to_N N.to_uint NilZero.string_of_int].
    unfold NilZero.string_of_uint.
    pose proof (DecimalPos.Unsigned.to_uint_nonnil p) as Hp.
    destruct (Pos.to_uint p); [contradiction | reflexivity ..].
  - rewrite <- decimal_value_of_uint. apply DecimalN.Unsigned.of_to.
Qed.

(** [str(n) > str(m)] for two non-negative integers written with the same
    number of digits. *)
Lemma gt_str_int (n m : Z) :
  0 <= n -> 0 <= m ->
  String.length (Py.str_int n) = String.length (Py.str_int m) ->
  Py.gt (Py.str_int n) (Py.str_int m) = (m <? n).
Proof.
  intros Hn Hm Hl.
  destruct (str_int_nonneg n Hn) as [Hsn Hvn].
  destruct (str_int_nonneg m Hm) as [Hsm Hvm].
  rewrite Hsn, Hsm in Hl. unfold Py.gt.
  rewrite Hsn, Hsm, (compare_decimal _ _ 0%N Hl), Hvn, Hvm.
  destruct (N.compare_spec (Z.to_N n) (Z.to_N m)) as [He|Hlt|Hgt];
    symmetry; [apply Z.ltb_ge | apply Z.ltb_ge | apply Z.ltb_lt]; lia.
Qed.

(** The text of an absent time is greater than the text of any integer. *)
Lemma gt_none_str_int (n : Z) : Py.gt "none" (Py.str_int n) = true.
Proof.
  unfold Py.str_int.
  destruct n as [|p|p]; [reflexivity | |];
    cbn [Z.to_int NilZero.string_of_int]; [| reflexivity].
  unfold NilZero.string_of_uint.
  destruct (Pos.to_uint p); reflexivity.
Qed.

End DecimalOrder.

(** X16: sorting by the time of addition compares the decimal texts of the
    times, and for two different non-negative times written with the same
    number of digits that is the order of the numbers: [newest] places the
    game added later first and [oldest] the game added earlier. *)
Theorem sort_func_added_numeric (w : CartridgesWindow) (a b : Game) :
  0 <= added a -> 0 <= added b ->
  String.length (Py.str_int (added a)) = String.length (Py.str_int (added b)) ->
  added a <> added b ->
  sort_func (with_sort_state "newest" w) a b
  = (if added b <? added a then -1 else 1)
  /\ sort_func (with_sort_state "oldest" w) a b
     = (if added a <? added b then -1 else 1).
Proof.
  intros Ha Hb Hl Hne.
  rewrite (sort_func_by_added (with_sort_state "newest" w) true a b eq_refl).
  rewrite (sort_func_by_added (with_sort_state "oldest" w) false a b eq_refl).
  destruct (String.eqb_spec (get_value attr_added a) (get_value attr_added b))
    as [He|_]; [apply added_text_inj in He; contradiction |].
  unfold get_value. rewrite !lower_str_int, (gt_str_int _ _ Ha Hb Hl).
  destruct (Z.ltb_spec (added b) (added a)), (Z.ltb_spec (added a) (added b));
    try lia; split; reflexivity.
Qed.

Lemma sort_func_added_numeric_witness :
  sort_func (with_sort_state "newest" sample_window)
    (mkGame "a" None 1700000000 None false false false false false)
    (mkGame "b" None 1650000000 None false false false false false) = -1
  /\ sort_func (with_sort_state "oldest" sample_window) zelda mario = -1.
Proof.
  destruct (sort_func_added_numeric sample_window
              (mkGame "a" None 1700000000 None false false false false false)
              (mkGame "b" None 1650000000 None false false false false false))
    as [Hnew _]; [discriminate | discriminate | reflexivity | discriminate |].
  destruct (sort_func_added_numeric sample_window zelda mario)
    as [_ Hold]; [discriminate | discriminate | reflexivity | discriminate |].
  split; [exact Hnew | exact Hold].
Defined.

(** X17: in the [last_played] mode, of two games played at different
    non-negative times written with the same number of digits the one
    played later comes first; and a game whose [last_played] is absent
    comes before every game that has one, because its text is "none". *)
Theorem sort_func_last_played_numeric (w : CartridgesWindow) (a b : Game) :
  (forall x y,
      last_played a = Some x -> last_played b = Some y ->
      0 <= x -> 0 <= y ->
      String.length (Py.str_int x) = String.length (Py.str_int y) ->
      x <> y ->
      sort_func (with_sort_state "last_played" w) a b
      = (if y <? x then -1 else 1))
  /\ (forall y,
        last_played a = None -> last_played b = Some y ->
        sort_func (with_sort_state "last_played" w) a b = -1
        /\ sort_func (with_sort_state "last_played" w) b a = 1).
Proof.
  assert (Hun : forall g1 g2,
             get_value attr_last_played g1 <> get_value attr_last_played g2 ->
             sort_func (with_sort_state "last_played" w) g1 g2
             = if Py.gt (get_value attr_last_played g1)
                    (get_value attr_last_played g2)
               then -1 else 1).
  { intros g1 g2 Hne. rewrite sort_func_unfold. cbv zeta.
    change (sort_key (sort_state (with_sort_state "last_played" w)))
      with (attr_last_played, true).
    cbn [fst snd]. rewrite bool_decide_eq_false_2 by discriminate.
    cbn [negb andb].
    destruct (String.eqb_spec (get_value attr_last_played g1)
                (get_value attr_last_played g2)); [contradiction |].
    destruct (Py.gt _ _); reflexivity. }
  split.
  - intros x y Hx Hy Hx0 Hy0 Hl Hne.
    rewrite Hun.
    + unfold get_value. rewrite Hx, Hy. cbn [Py.str_opt_int].
      rewrite !lower_str_int, (gt_str_int _ _ Hx0 Hy0 Hl). reflexivity.
    + intros He. apply lower_str_opt_int_inj in He. congruence.
  - intros y Ha Hb.
    assert (Hne : get_value attr_last_played a <> get_value attr_last_played b).
    { intros He. apply lower_str_opt_int_inj in He. congruence. }
    rewrite (Hun a b Hne), (Hun b a) by congruence.
    unfold get_value. rewrite Ha, Hb. cbn [Py.str_opt_int].
    rewrite lower_str_int.
    change (Py.lower "None") with "none".
    pose proof (gt_none_str_int y) as Hgt. rewrite Hgt.
    split; [reflexivity |].
    destruct (Py.gt (Py.str_int y) "none") eqn:Hrev; [| reflexivity].
    apply gt_lt in Hgt. apply gt_lt in Hrev.
    exfalso. StringOrderFacts.order.
Qed.

Lemma sort_func_last_played_numeric_witness :
  sort_func (with_sort_state "last_played" sample_window)
    (played "a" 1700000500) (played "b" 1700000000) = -1
  /\ sort_func (with_sort_state "last_played" sample_window) zelda mario = -1.
Proof.
  destruct (sort_func_last_played_numeric sample_window
              (played "a" 1700000500) (played "b" 1700000000)) as [Hnum _].
  destruct (sort_func_last_played_numeric sample_window zelda mario)
    as [_ Hnone].
  split.
  - rewrite (Hnum 1700000500 1700000000);
      [reflexivity | reflexivity | reflexivity | discriminate | discriminate
      | reflexivity | discriminate].
  - exact (proj1 (Hnone 1700000000 eq_refl eq_refl)).
Defined.

(** * What the handlers leave alone *)

Section Frame.

Context `{Collaborators}.

Lemma frame_set_library_child (w : CartridgesWindow) :
  games_and_registry (set_library_child w) = games_and_registry w.
Proof.
  unfold set_library_child. destruct (set_library_child_loop (store w)).
  reflexivity.
Qed.

Lemma map_insert_same {A B} (f : A -> B) (l : list A) (i : nat) (x y : A) :
  l !! i = Some y -> f x = f y -> map f (<[i := x]> l) = map f l.
Proof.
  revert i. induction l as [|z l IH]; intros [|i] Hl Hf;
    try discriminate; cbn [map].
  - injection Hl as ->. cbn. rewrite Hf. reflexivity.
  - cbn. f_equal. exact (IH i Hl Hf).
Qed.

Lemma frame_filter_func (child : GameRef) (w : CartridgesWindow) :
  games_and_registry (fst (filter_func child w)) = games_and_registry w.
Proof.
  unfold filter_func. destruct (store w !! child) as [G|] eqn:HG;
    [| reflexivity].
  cbn [fst]. rewrite frame_set_library_child. unfold games_and_registry.
  cbn [store toasts dismissed importer with_store].
  do 3 f_equal. apply (map_insert_same _ _ _ _ G HG). reflexivity.
Qed.

Lemma frame_invalidate_filter (children : list GameRef) (w : CartridgesWindow) :
  games_and_registry (invalidate_filter children w) = games_and_registry w.
Proof.
  unfold invalidate_filter. revert w.
  induction children as [|child children IH]; intros w; cbn [fold_left];
    [reflexivity | rewrite IH; apply frame_filter_func].
Qed.

Lemma frame_navigate (page : Page) (w : CartridgesWindow) :
  games_and_registry (navigate page w) = games_and_registry w.
Proof. destruct page; reflexivity. Qed.

Lemma frame_on_go_to_parent_action (w : CartridgesWindow) :
  games_and_registry (on_go_to_parent_action w) = games_and_registry w.
Proof.
  unfold on_go_to_parent_action.
  repeat case_bool_decide; try apply frame_navigate; reflexivity.
Qed.

Lemma frame_on_go_back_action (w : CartridgesWindow) :
  games_and_registry (on_go_back_action w) = games_and_registry w.
Proof.
  unfold on_go_back_action.
  repeat case_bool_decide;
    [apply frame_navigate | apply frame_on_go_to_parent_action | reflexivity].
Qed.

Lemma frame_show_details_view (game : GameRef) (w : CartridgesWindow) :
  games_and_registry (show_details_view game w) = games_and_registry w.
Proof.
  unfold show_details_view. destruct (negb _); [| reflexivity].
  change (games_and_registry (set_focus details_view_play_button ?x))
    with (games_and_registry x).
  rewrite frame_navigate. reflexivity.
Qed.

Lemma frame_show_details_view_search_loop (children : list GameRef)
    (w : CartridgesWindow) :
  games_and_registry (show_details_view_search_loop children w)
  = games_and_registry w.
Proof.
  revert w. induction children as [|child children IH]; intros w;
    cbn [show_details_view_search_loop]; [reflexivity |].
  pose proof (frame_filter_func child w) as Hf.
  destruct (filter_func child w) as [w1 keep]. cbn [fst] in Hf.
  destruct keep; [rewrite frame_show_details_view | rewrite IH]; exact Hf.
Qed.

Lemma frame_search_entry_set_text_empty (hidden : bool) (w : CartridgesWindow) :
  games_and_registry (search_entry_set_text_empty hidden w)
  = games_and_registry w.
Proof.
  unfold search_entry_set_text_empty, search_changed.
  destruct hidden;
    [destruct (String.eqb (hidden_search_entry_text w) "")
    | destruct (String.eqb (search_entry_text w) "")];
    try reflexivity; rewrite frame_invalidate_filter; reflexivity.
Qed.

Lemma frame_on_toggle_search_action (w : CartridgesWindow) :
  games_and_registry (on_toggle_search_action w) = games_and_registry w.
Proof.
  unfold on_toggle_search_action.
  repeat case_bool_decide; try reflexivity;
    cbv zeta; rewrite frame_search_entry_set_text_empty;
    [destruct (search_bar_search_mode w)
    | destruct (hidden_search_bar_search_mode w)]; reflexivity.
Qed.

End Frame.

(** X18: apart from undo, no handler of the window changes a game in any
    field but [filtered], and none touches the undo registry, the dismissed
    toasts or the importer: searching, sorting, navigating, toggling the
    search and Escape leave them as they were. *)
Theorem handlers_keep_games `{Collaborators} (w : CartridgesWindow) (a : Action) :
  (forall game undo, a <> UndoAction game undo) ->
  (forall env, a <> Environment env) ->
  map (set_filtered false) (store (step w a)) = map (set_filtered false) (store w)
  /\ toasts (step w a) = toasts w
  /\ dismissed (step w a) = dismissed w
  /\ importer (step w a) = importer w.
Proof.
  intros Hu He.
  assert (Hf : games_and_registry (step w a) = games_and_registry w).
  { destruct a; cbn [step].
    - apply frame_set_library_child.
    - apply frame_invalidate_filter.
    - apply frame_filter_func.
    - reflexivity.
    - apply frame_show_details_view.
    - apply frame_show_details_view_search_loop.
    - apply frame_on_go_back_action.
    - apply frame_on_go_to_parent_action.
    - apply frame_navigate.
    - apply frame_navigate.
    - reflexivity.
    - apply frame_on_toggle_search_action.
    - unfold on_escape_action. destruct (escape_condition w);
        [apply frame_on_toggle_search_action | apply frame_on_go_back_action].
    - exfalso. exact (Hu game undo eq_refl).
    - exfalso. exact (He env eq_refl). }
  unfold games_and_registry in Hf. injection Hf as H1 H2 H3 H4.
  repeat split; assumption.
Qed.

Lemma handlers_keep_games_witness :
  let w := with_toasts [((0%nat, Some "hide"), 4%nat)]
             (with_search_entry_text "xyz" sample_window) in
  store (@step idle w (SearchChanged false))
  = [set_filtered true zelda; set_filtered true mario]
  /\ map (set_filtered false) (store (@step idle w (SearchChanged false)))
     = [zelda; mario]
  /\ toasts (@step idle w (ShowDetailsViewSearch search_entry))
     = [((0%nat, Some "hide"), 4%nat)].
Proof.
  intros w.
  destruct (@handlers_keep_games idle w (SearchChanged false)) as (Hg & _);
    [discriminate | discriminate |].
  destruct (@handlers_keep_games idle w (ShowDetailsViewSearch search_entry))
    as (_ & Ht & _); [discriminate | discriminate |].
  split; [vm_compute; reflexivity |]. split.
  - etrans; [exact Hg | reflexivity].
  - etrans; [exact Ht | reflexivity].
Defined.

(** * Further properties of placeholder selection *)

Section PlaceholderMore.

Lemma existsb_filter {A} (P Q : A -> bool) (l : list A) :
  existsb P (List.filter Q l) = existsb (fun x => Q x && P x) l.
Proof.
  induction l as [|x l IH]; [reflexivity |].
  cbn [List.filter existsb]. destruct (Q x); cbn [existsb andb]; rewrite IH;
    reflexivity.
Qed.

Lemma existsb_ext_bool {A} (P Q : A -> bool) (l : list A) :
  (forall x, P x = Q x) -> existsb P l = existsb Q l.
Proof.
  intros He. induction l as [|x l IH]; [reflexivity |].
  cbn [existsb]. rewrite He, IH. reflexivity.
Qed.

Lemma existsb_false {A} (P : A -> bool) (l : list A) :
  (forall x, In x l -> P x = false) -> existsb P l = false.
Proof.
  induction l as [|x l IH]; intros Hf; [reflexivity |].
  cbn [existsb]. rewrite (Hf x) by (left; reflexivity).
  apply IH. intros y Hy. apply Hf. right. exact Hy.
Qed.

End PlaceholderMore.

(** X19: the two views are selected apart, and games out of the library do
    not count. The bin of the library is what the games that are not hidden
    alone would give, the bin of the hidden library what the hidden games
    alone would give; removed and blacklisted games can be dropped from the
    store without changing either; and a store in which every game is
    removed or blacklisted shows the empty notice in both. *)
Theorem set_library_child_views (w : CartridgesWindow) :
  library_bin_child (set_library_child w)
  = library_bin_child
      (set_library_child
         (with_store (List.filter (fun g => negb (hidden g)) (store w)) w))
  /\ hidden_library_bin_child (set_library_child w)
     = hidden_library_bin_child
         (set_library_child (with_store (List.filter hidden (store w)) w))
  /\ set_library_child (with_store (List.filter eligible (store w)) w)
     = with_store (List.filter eligible (store w)) (set_library_child w)
  /\ ((forall g, In g (store w) -> eligible g = false) ->
      library_bin_child (set_library_child w) = notice_empty
      /\ hidden_library_bin_child (set_library_child w) = hidden_notice_empty).
Proof.
  assert (Hsel : forall hid (Q : Game -> bool) games,
             (forall g, in_group hid g = true -> Q g = true) ->
             spec_placeholder hid (List.filter Q games)
             = spec_placeholder hid games).
  { intros hid Q games HQ. unfold spec_placeholder.
    rewrite !existsb_filter.
    rewrite (existsb_ext_bool (fun x => Q x && (in_group hid x && negb (filtered x)))
               (fun g => in_group hid g && negb (filtered g))).
    - rewrite (existsb_ext_bool (fun x => Q x && in_group hid x) (in_group hid));
        [reflexivity |].
      intros g. specialize (HQ g). destruct (in_group hid g), (Q g);
        try reflexivity. discriminate (HQ eq_refl).
    - intros g. specialize (HQ g). destruct (in_group hid g), (Q g);
        try reflexivity. discriminate (HQ eq_refl). }
  destruct (set_library_child_bins w) as [Hl Hh].
  split; [| split; [| split]].
  - rewrite Hl.
    rewrite (proj1 (set_library_child_bins (with_store _ w))).
    cbn [store with_store]. symmetry. apply Hsel.
    intros g. unfold in_group. destruct (hidden g), (removed g || blacklisted g);
      intros Hg; try discriminate; reflexivity.
  - rewrite Hh.
    rewrite (proj2 (set_library_child_bins (with_store _ w))).
    cbn [store with_store]. symmetry. apply Hsel.
    intros g. unfold in_group. destruct (hidden g), (removed g || blacklisted g);
      intros Hg; try discriminate; reflexivity.
  - unfold set_library_child. cbn [store with_store].
    rewrite !loop_spec.
    rewrite !Hsel; [reflexivity | |];
      intros g; unfold in_group, eligible;
      destruct (removed g || blacklisted g); intros Hg;
      try discriminate; reflexivity.
  - intros Hall. rewrite Hl, Hh. unfold spec_placeholder.
    rewrite !existsb_false; [split; reflexivity | | | |];
      intros g Hg; specialize (Hall g Hg); unfold in_group, eligible in *;
      destruct (removed g || blacklisted g); try discriminate; reflexivity.
Qed.

Lemma set_library_child_views_witness :
  let gone := set_removed true zelda in
  let w := with_store [gone; gone] sample_window in
  library_bin_child (set_library_child w) = notice_empty
  /\ hidden_library_bin_child (set_library_child w) = hidden_notice_empty.
Proof.
  intros gone w.
  destruct (set_library_child_views w) as (_ & _ & _ & Hempty).
  apply Hempty. intros g [<-|[<-|[]]]; reflexivity.
Defined.

(** * The filter pass as a fixed point *)

Section FilterFixed.

Lemma set_filtered_same (g : Game) : set_filtered (filtered g) g = g.
Proof. destruct g. reflexivity. Qed.

Lemma set_library_child_fixed (w : CartridgesWindow) :
  placeholders_in_sync w -> set_library_child w = w.
Proof.
  intros [Hl Hh]. unfold set_library_child. rewrite loop_spec, <- Hl, <- Hh.
  destruct w. reflexivity.
Qed.

Lemma filter_func_fixed (child : GameRef) (w : CartridgesWindow) :
  (forall g, store w !! child = Some g ->
             placeholders_in_sync w
             /\ filtered g = filter_filtered (filter_text w) g) ->
  fst (filter_func child w) = w.
Proof.
  intros Hg. unfold filter_func.
  destruct (store w !! child) as [g|] eqn:Hl; [| reflexivity].
  destruct (Hg g eq_refl) as [Hs Hf]. cbn [fst].
  rewrite <- Hf, set_filtered_same, list_insert_id by exact Hl.
  rewrite with_store_same. apply set_library_child_fixed, Hs.
Qed.

Lemma invalidate_filter_fixed (children : list GameRef) (w : CartridgesWindow) :
  (forall child, In child children -> fst (filter_func child w) = w) ->
  invalidate_filter children w = w.
Proof.
  unfold invalidate_filter.
  induction children as [|c children IH]; intros Hc; cbn [fold_left];
    [reflexivity |].
  rewrite (Hc c) by (left; reflexivity).
  apply IH. intros child Hin. apply Hc. right. exact Hin.
Qed.

Lemma filter_text_invalidate_filter (children : list GameRef)
    (w : CartridgesWindow) :
  filter_text (invalidate_filter children w) = filter_text w.
Proof.
  unfold invalidate_filter. revert w.
  induction children as [|c children IH]; intros w; cbn [fold_left];
    [reflexivity | rewrite IH; apply filter_text_filter_func].
Qed.

Lemma children_filter_func (child : GameRef) (w : CartridgesWindow) :
  library_children (fst (filter_func child w)) = library_children w
  /\ hidden_library_children (fst (filter_func child w))
     = hidden_library_children w.
Proof.
  unfold filter_func. destruct (store w !! child); [| split; reflexivity].
  cbn [fst]. unfold set_library_child.
  destruct (set_library_child_loop _). split; reflexivity.
Qed.

Lemma children_invalidate_filter (children : list GameRef)
    (w : CartridgesWindow) :
  library_children (invalidate_filter children w) = library_children w
  /\ hidden_library_children (invalidate_filter children w)
     = hidden_library_children w.
Proof.
  unfold invalidate_filter. revert w.
  induction children as [|c children IH]; intros w; cbn [fold_left];
    [split; reflexivity |].
  destruct (IH (fst (filter_func c w))) as [H1 H2].
  destruct (children_filter_func c w) as [H3 H4].
  split; congruence.
Qed.

Lemma lookup_invalidate_filter_None (children : list GameRef)
    (w : CartridgesWindow) (child : GameRef) :
  store w !! child = None ->
  store (invalidate_filter children w) !! child = None.
Proof.
  unfold invalidate_filter. revert w.
  induction children as [|c children IH]; intros w Hn; cbn [fold_left];
    [exact Hn |].
  apply IH. apply eq_None_not_Some. rewrite lookup_filter_func_is_Some.
  apply eq_None_not_Some, Hn.
Qed.

End FilterFixed.

(** * Further properties of the search toggle and Escape *)

Section ToggleMore.

Lemma search_ui_filter_func (child : GameRef) (w : CartridgesWindow) :
  search_ui (fst (filter_func child w)) = search_ui w.
Proof.
  unfold filter_func. destruct (store w !! child); [| reflexivity].
  cbn [fst]. unfold set_library_child.
  destruct (set_library_child_loop _). reflexivity.
Qed.

Lemma search_ui_invalidate_filter (children : list GameRef)
    (w : CartridgesWindow) :
  search_ui (invalidate_filter children w) = search_ui w.
Proof.
  unfold invalidate_filter. revert w.
  induction children as [|c children IH]; intros w; cbn [fold_left];
    [reflexivity | rewrite IH; apply search_ui_filter_func].
Qed.

(** Emptying an entry empties its text and leaves the rest of the searches
    and the focus alone, whether or not the signal is emitted. *)
Lemma search_ui_search_entry_set_text_empty (hidden : bool)
    (w : CartridgesWindow) :
  search_ui (search_entry_set_text_empty hidden w)
  = search_ui (if hidden then with_hidden_search_entry_text "" w
               else with_search_entry_text "" w).
Proof.
  unfold search_entry_set_text_empty, search_changed. destruct hidden.
  - destruct (String.eqb_spec (hidden_search_entry_text w) "") as [He|_].
    + unfold search_ui. destruct w. cbn in *. rewrite He. reflexivity.
    + apply search_ui_invalidate_filter.
  - destruct (String.eqb_spec (search_entry_text w) "") as [He|_].
    + unfold search_ui. destruct w. cbn in *. rewrite He. reflexivity.
    + apply search_ui_invalidate_filter.
Qed.

(** The searches and the focus after the toggle. *)
Lemma search_ui_on_toggle_search_action (w : CartridgesWindow) :
  search_ui (on_toggle_search_action w)
  = match stack_visible_child w with
    | library_view =>
        ("", hidden_search_entry_text w, negb (search_bar_search_mode w),
         hidden_search_bar_search_mode w,
         if search_bar_search_mode w then focus_widget w
         else Some search_entry_inner)
    | hidden_library_view =>
        (search_entry_text w, "", search_bar_search_mode w,
         negb (hidden_search_bar_search_mode w),
         if hidden_search_bar_search_mode w then focus_widget w
         else Some hidden_search_entry_inner)
    | details_view => search_ui w
    end.
Proof.
  unfold on_toggle_search_action.
  destruct (stack_visible_child w); repeat case_bool_decide;
    try congruence; try reflexivity;
    cbv zeta; rewrite search_ui_search_entry_set_text_empty;
    [destruct (search_bar_search_mode w)
    | destruct (hidden_search_bar_search_mode w)]; reflexivity.
Qed.

(** With the visible entry already empty the toggle emits no signal and
    the store is not touched. *)
Lemma on_toggle_search_action_quiet (w : CartridgesWindow) :
  active_query w = "" -> store (on_toggle_search_action w) = store w.
Proof.
  destruct w as [st lc hc visible tt prev sh lb hb t1 t2 m1 m2 fw ss sa sm to di im ag].
  unfold active_query, on_toggle_search_action, search_entry_set_text_empty.
  cbn [stack_visible_child search_entry_text hidden_search_entry_text
       search_bar_search_mode hidden_search_bar_search_mode].
  intros Hq. repeat case_bool_decide; try congruence; try reflexivity;
    subst; cbv zeta; destruct m1, m2; reflexivity.
Qed.

(** With text in the visible entry the toggle is a search-changed signal
    delivered to a window that has the games and the flow boxes of the one
    before and an empty query. *)
Lemma on_toggle_search_action_emits (w : CartridgesWindow) :
  stack_visible_child w <> details_view ->
  active_query w <> "" ->
  exists w0,
    on_toggle_search_action w
    = search_changed
        (bool_decide (stack_visible_child w = hidden_library_view)) w0
    /\ store w0 = store w
    /\ library_children w0 = library_children w
    /\ hidden_library_children w0 = hidden_library_children w
    /\ filter_text w0 = "".
Proof.
  destruct w as [st lc hc visible tt prev sh lb hb t1 t2 m1 m2 fw ss sa sm to di im ag].
  unfold active_query, on_toggle_search_action, search_entry_set_text_empty,
    filter_text.
  cbn [stack_visible_child search_entry_text hidden_search_entry_text
       search_bar_search_mode hidden_search_bar_search_mode].
  intros Hv Hq.
  destruct visible; [| | contradiction]; repeat case_bool_decide;
    try congruence; cbv zeta.
  - destruct m1; cbn [negb set_focus with_focus_widget
                      with_search_bar_search_mode search_entry_text];
      (destruct (String.eqb_spec t1 "") as [He|_]; [contradiction |]);
      eexists; (split; [reflexivity |]); repeat split.
  - destruct m2; cbn [negb set_focus with_focus_widget
                      with_hidden_search_bar_search_mode
                      hidden_search_entry_text];
      (destruct (String.eqb_spec t2 "") as [He|_]; [contradiction |]);
      eexists; (split; [reflexivity |]); repeat split.
Qed.

End ToggleMore.

(** X10: the search toggle acts on the search of the visible library page
    only. It negates that page's search mode and always empties that page's
    entry, on opening as on closing; opening moves the focus into the entry;
    the other page's search mode and text and the navigation state are left
    alone; on the details page it does nothing; when the entry of the
    visible page is already empty no signal is emitted and the store is as
    it was; and toggling twice restores both search modes. *)
Theorem on_toggle_search_action_effect (w : CartridgesWindow) :
  let w1 := on_toggle_search_action w in
  let w2 := on_toggle_search_action w1 in
  (stack_visible_child w = library_view ->
   search_bar_search_mode w1 = negb (search_bar_search_mode w)
   /\ search_entry_text w1 = ""
   /\ hidden_search_bar_search_mode w1 = hidden_search_bar_search_mode w
   /\ hidden_search_entry_text w1 = hidden_search_entry_text w
   /\ (search_bar_search_mode w = false ->
       get_focus w1 = Some search_entry_inner))
  /\ (stack_visible_child w = hidden_library_view ->
      hidden_search_bar_search_mode w1 = negb (hidden_search_bar_search_mode w)
      /\ hidden_search_entry_text w1 = ""
      /\ search_bar_search_mode w1 = search_bar_search_mode w
      /\ search_entry_text w1 = search_entry_text w
      /\ (hidden_search_bar_search_mode w = false ->
          get_focus w1 = Some hidden_search_entry_inner))
  /\ (stack_visible_child w = details_view -> w1 = w)
  /\ (active_query w = "" -> store w1 = store w)
  /\ navq w1 = navq w
  /\ search_bar_search_mode w2 = search_bar_search_mode w
  /\ hidden_search_bar_search_mode w2 = hidden_search_bar_search_mode w.
Proof.
  intros w1 w2.
  pose proof (search_ui_on_toggle_search_action w) as Hu. fold w1 in Hu.
  pose proof (search_ui_on_toggle_search_action w1) as Hu2. fold w2 in Hu2.
  pose proof (navq_on_toggle_search_action w) as Hn. fold w1 in Hn.
  assert (Hv1 : stack_visible_child w1 = stack_visible_child w)
    by (unfold navq in Hn; congruence).
  rewrite Hv1 in Hu2. unfold search_ui, get_focus in *.
  split; [| split; [| split; [| split; [| split]]]].
  - intros Hv. rewrite Hv in Hu. injection Hu as H1 H2 H3 H4 H5.
    repeat split; try assumption. intros Hm. rewrite H5, Hm. reflexivity.
  - intros Hv. rewrite Hv in Hu. injection Hu as H1 H2 H3 H4 H5.
    repeat split; try assumption. intros Hm. rewrite H5, Hm. reflexivity.
  - intros Hv. subst w1. unfold on_toggle_search_action. rewrite Hv.
    repeat case_bool_decide; try congruence; reflexivity.
  - apply on_toggle_search_action_quiet.
  - exact Hn.
  - destruct (stack_visible_child w);
      injection Hu2 as H1 H2 H3 H4 H5; injection Hu as G1 G2 G3 G4 G5;
      rewrite H3, H4, G3, G4, ?negb_involutive; split; reflexivity.
Qed.

Lemma on_toggle_search_action_effect_witness :
  let w := with_hidden_search_entry_text "kept"
             (with_search_entry_text "zel" sample_window) in
  search_bar_search_mode (on_toggle_search_action w) = true
  /\ search_entry_text (on_toggle_search_action w) = ""
  /\ hidden_search_entry_text (on_toggle_search_action w) = "kept"
  /\ get_focus (on_toggle_search_action w) = Some search_entry_inner
  /\ store (on_toggle_search_action sample_window) = store sample_window.
Proof.
  intros w.
  destruct (on_toggle_search_action_effect w) as (Hlib & _).
  destruct (on_toggle_search_action_effect sample_window)
    as (_ & _ & _ & Hquiet & _).
  destruct (Hlib eq_refl) as (Hmode & Htext & _ & Hother & Hfocus).
  split; [etrans; [exact Hmode | reflexivity] |].
  split; [exact Htext |].
  split; [etrans; [exact Hother | reflexivity] |].
  split; [apply Hfocus; reflexivity |].
  apply Hquiet. reflexivity.
Defined.

(** X11: toggling the search while the entry of the visible library page
    holds text shows the whole flow box of that page again. Emptying the
    entry emits its search-changed signal, whose handler re-runs the filter
    with the empty query: every game of that box ends with its [filtered]
    field false and its other fields as they were, and the bins show the
    selection for the new flags. *)
Theorem toggle_search_shows_all (w : CartridgesWindow) (child : GameRef)
    (G : Game) :
  stack_visible_child w <> details_view ->
  active_query w <> "" ->
  let hidden := bool_decide (stack_visible_child w = hidden_library_view) in
  In child (if hidden then hidden_library_children w else library_children w) ->
  store w !! child = Some G ->
  (exists G', store (on_toggle_search_action w) !! child = Some G'
              /\ filtered G' = false
              /\ same_game_but_filtered G G')
  /\ placeholders_in_sync (on_toggle_search_action w).
Proof.
  intros Hv Hq hidden Hin HG.
  destruct (on_toggle_search_action_emits w Hv Hq)
    as (w0 & -> & Hs & Hl & Hh & Ht).
  fold hidden. unfold search_changed. rewrite Hl, Hh.
  assert (HG0 : store w0 !! child = Some G) by (rewrite Hs; exact HG).
  split.
  - apply lookup_set_filtered.
    rewrite (store_invalidate_filter _ w0 child G Hin HG0), Ht.
    reflexivity.
  - apply in_sync_invalidate_filter. right. exists child.
    split; [exact Hin | exists G; exact HG0].
Qed.

Lemma toggle_search_shows_all_witness :
  let w :=
    search_changed false (with_search_bar_search_mode true
                            (with_search_entry_text "xyz" sample_window)) in
  filtered <$> store w !! 0%nat = Some true
  /\ library_bin_child w = notice_no_results
  /\ filtered <$> store (on_toggle_search_action w) !! 0%nat = Some false
  /\ name <$> store (on_toggle_search_action w) !! 0%nat = Some "Zelda"
  /\ library_bin_child (on_toggle_search_action w) = scrolledwindow.
Proof.
  intros w.
  assert (Hv : stack_visible_child w <> details_view) by discriminate.
  assert (Hq : active_query w <> "") by discriminate.
  destruct (toggle_search_shows_all w 0%nat (set_filtered true zelda) Hv Hq)
    as ((G' & Hl & Hf & Hn & _) & Hsync & _);
    [left; reflexivity | vm_compute; reflexivity |].
  split; [vm_compute; reflexivity |].
  split; [vm_compute; reflexivity |].
  split; [etrans; [exact (f_equal (fmap filtered) Hl) |];
          cbn; rewrite Hf; reflexivity |].
  split; [etrans; [exact (f_equal (fmap name) Hl) |];
          cbn; rewrite Hn; reflexivity |].
  etrans; [exact Hsync | vm_compute; reflexivity].
Defined.

(** X12: how Escape is routed. With the focus on a widget other than the
    inner widgets of the two search entries it does what the back action
    does; with the focus in one of the entries, or with no focus widget in
    the window, it does what the search toggle does. With the focus in the
    entry of the visible library page and its search on, that closes the
    search, empties the entry and stays on the page. *)
Theorem on_escape_action_routes (w : CartridgesWindow) :
  (forall f, get_focus w = Some f ->
     f <> search_entry_inner -> f <> hidden_search_entry_inner ->
     on_escape_action w = on_go_back_action w)
  /\ (get_focus w = Some search_entry_inner
      \/ get_focus w = Some hidden_search_entry_inner
      \/ get_focus w = None ->
      on_escape_action w = on_toggle_search_action w)
  /\ (get_focus w = Some search_entry_inner ->
      stack_visible_child w = library_view ->
      search_bar_search_mode w = true ->
      search_bar_search_mode (on_escape_action w) = false
      /\ search_entry_text (on_escape_action w) = ""
      /\ navq (on_escape_action w) = navq w).
Proof.
  split; [| split].
  - intros f Hf Hs Hh. unfold on_escape_action.
    destruct (escape_condition w) eqn:He; [| reflexivity].
    apply escape_condition_cases in He.
    destruct He as [He|[He|He]]; congruence.
  - intros Hc. unfold on_escape_action.
    apply escape_condition_cases in Hc. rewrite Hc. reflexivity.
  - intros Hf Hv Hm. unfold on_escape_action.
    assert (Hc : escape_condition w = true)
      by (apply escape_condition_cases; left; exact Hf).
    rewrite Hc. clear Hc Hf.
    pose proof (search_ui_on_toggle_search_action w) as Hu.
    rewrite Hv, Hm in Hu. unfold search_ui in Hu.
    injection Hu as H1 H2 H3 H4 H5.
    split; [exact H3 |]. split; [exact H1 |].
    apply navq_on_toggle_search_action.
Qed.

Lemma on_escape_action_routes_witness :
  let typing :=
    with_search_entry_text "zel" (on_toggle_search_action sample_window) in
  let d := show_details_view 0%nat sample_window in
  get_focus typing = Some search_entry_inner
  /\ search_bar_search_mode (on_escape_action typing) = false
  /\ search_entry_text (on_escape_action typing) = ""
  /\ on_escape_action d = on_go_back_action d.
Proof.
  intros typing d.
  destruct (on_escape_action_routes typing) as (_ & _ & Hclose).
  destruct (on_escape_action_routes d) as (Hback & _).
  destruct (Hclose eq_refl eq_refl eq_refl) as (Hm & Ht & _).
  split; [reflexivity |]. split; [exact Hm |]. split; [exact Ht |].
  apply (Hback details_view_play_button); [reflexivity | discriminate ..].
Defined.

(** X20: the filter pass is a fixed point. Delivering the same
    search-changed signal a second time, with nothing changed in between,
    leaves the window exactly as the first pass left it: the same flags, the
    same bins, the same everything. *)
Theorem search_changed_idempotent (hidden : bool) (w : CartridgesWindow) :
  search_changed hidden (search_changed hidden w) = search_changed hidden w.
Proof.
  unfold search_changed.
  set (box := if hidden then hidden_library_children w else library_children w).
  destruct (children_invalidate_filter box w) as [Hl Hh].
  replace (if hidden
           then hidden_library_children (invalidate_filter box w)
           else library_children (invalidate_filter box w))
    with box by (subst box; destruct hidden; congruence).
  apply invalidate_filter_fixed. intros child Hin.
  apply filter_func_fixed. intros g Hg.
  destruct (store w !! child) as [G|] eqn:HG.
  - rewrite (store_invalidate_filter box w child G Hin HG) in Hg.
    injection Hg as <-. split.
    + apply in_sync_invalidate_filter. right. exists child.
      split; [exact Hin | exists G; exact HG].
    + rewrite filter_text_invalidate_filter. reflexivity.
  - rewrite (lookup_invalidate_filter_None box w child HG) in Hg.
    discriminate.
Qed.

(** X21: showing the details of a game after those of another leaves no
    trace of the first: the window is the one that showing the second game
    alone gives, with the same page to go back to. *)
Theorem show_details_view_again (game1 game2 : GameRef) (w : CartridgesWindow) :
  show_details_view game2 (show_details_view game1 w)
  = show_details_view game2 w.
Proof.
  destruct w as [st lc hc visible tt prev sh lb hb t1 t2 m1 m2 fw ss sa sm to di im ag].
  destruct visible; reflexivity.
Qed.

(** X22: the window as [__init__] leaves it. The bins show the selection
    for the games in the store, the comparator sorts by name from a to z,
    and with no importer batch pending there is nothing to undo: the global
    undo returns with the window unchanged. *)
Theorem init_window `{Collaborators} (template : CartridgesWindow) :
  placeholders_in_sync (init template)
  /\ store (init template) = store template
  /\ (forall a b,
        sort_func (init template) a b
        = if Py.gt (get_value attr_name a) (get_value attr_name b)
          then 1 else -1)
  /\ (importer_pending template = false ->
      forall undo,
        on_undo_action None undo (init template) = (init template, Py.Returned)).
Proof.
  split; [apply set_library_child_in_sync |].
  split; [unfold init; rewrite store_set_library_child; reflexivity |].
  assert (Hi : init template
               = with_hidden_library_bin_child
                   (hidden_library_bin_child (init template))
                   (with_library_bin_child (library_bin_child (init template))
                      (with_previous_page library_view
                         (with_sort_state "a-z" (with_toasts [] template))))).
  { unfold init, set_library_child.
    destruct (set_library_child_loop _). reflexivity. }
  split.
  - intros a b. rewrite (sort_func_by_name (init template) false a b).
    + destruct (Py.gt _ _); reflexivity.
    + rewrite Hi. reflexivity.
  - intros Hp undo. unfold on_undo_action.
    replace (importer_pending (init template)) with (importer_pending template)
      by (rewrite Hi; reflexivity).
    rewrite Hp.
    replace (toasts (init template)) with (@nil (ToastKey * Toast))
      by (rewrite Hi; reflexivity).
    reflexivity.
Qed.

Lemma init_window_witness :
  @on_undo_action idle None None (init sample_template)
  = (init sample_template, Py.Returned).
Proof.
  destruct (@init_window idle sample_template) as (_ & _ & _ & Hundo).
  apply Hundo. reflexivity.
Defined.
